(** * Movies-Recommender: the content-based retrieval core

    A shallow embedding of [src/movie_recommender.py]: the text
    normaliser [_preprocess_text], the filter evaluator [_apply_filters]
    and the ranking procedure [recommend_movies] of class
    [MovieRecommender], together with the parts of NLTK, scikit-learn and
    numpy that these three methods call.

    Conventions of the embedding.
    - A Python [str] is a [string]; characters are ASCII.  The classes
      [\w], [\s] and [\d] of module [re] and [str.lower] are written out
      for ASCII.
    - A Python [int] is a [Z].
    - A similarity score (a numpy [float64]) is a rational [Q]: only the
      order of scores and the test [> 0] are used by the ranking code,
      rounding is not modelled.
    - The movie and filter dictionaries are records whose optional keys
      are [option] fields.
    - An [IndexError] is the [None] of the [option] monad.
    - NLTK and numpy's [argsort] are parameters: the stop-word list, the
      tokenizer, the lemmatizer and the order in which the sort leaves
      equal scores are not fixed by the source.

    The development also covers the query interpreter
    [extract_keywords_from_query], the views [recommend], [get_movie],
    [get_stats] and the years of [get_filters], and, of the ingestion,
    [_get_movie_details], [_process_movie_results] and the category
    counts of [_fetch_additional_data]; the network is a parameter. *)

From Stdlib Require Import List String Ascii Bool Arith ZArith QArith Lia.
From Stdlib Require Import DecimalString Permutation Sorted Setoid Morphisms.
From Stdlib Require Import DecimalPos.
Import ListNotations.

Local Open Scope string_scope.
Local Open Scope list_scope.

(* ================================================================== *)
(** * Python built-ins used by the source *)
(* ================================================================== *)

Module Py.

(** Character classes of [re] on ASCII text. *)
Definition is_digit (c : ascii) : bool :=
  let n := nat_of_ascii c in (48 <=? n)%nat && (n <=? 57)%nat.

Definition is_upper (c : ascii) : bool :=
  let n := nat_of_ascii c in (65 <=? n)%nat && (n <=? 90)%nat.

Definition is_lower (c : ascii) : bool :=
  let n := nat_of_ascii c in (97 <=? n)%nat && (n <=? 122)%nat.

(** [\w]: letters, digits and the underscore. *)
Definition is_word (c : ascii) : bool :=
  is_digit c || is_upper c || is_lower c || (nat_of_ascii c =? 95)%nat.

(** [\s], also where [str.split] cuts: TAB..CR, FS..US, space. *)
Definition is_space (c : ascii) : bool :=
  let n := nat_of_ascii c in
  ((9 <=? n)%nat && (n <=? 13)%nat) || ((28 <=? n)%nat && (n <=? 32)%nat).

(** The white space that [int] skips around a numeral: TAB..CR and
    space.  The separators FS..US are not among them. *)
Definition is_int_space (c : ascii) : bool :=
  let n := nat_of_ascii c in
  ((9 <=? n)%nat && (n <=? 13)%nat) || (n =? 32)%nat.

(** [str.lower]. *)
Definition lower_char (c : ascii) : ascii :=
  if is_upper c then ascii_of_nat (nat_of_ascii c + 32) else c.

Definition lower (s : string) : string :=
  string_of_list_ascii (map lower_char (list_ascii_of_string s)).

(** Truth value of a [str] that may be missing: [None] and [''] are
    false. *)
Definition truthy (s : option string) : bool :=
  match s with
  | Some (String _ _) => true
  | _ => false
  end.

(** [s[:4]]. *)
Definition first4 (s : string) : string := substring 0 4 s.

(** [str(i)] for an [int]. *)
Definition str_of_int (z : Z) : string := NilZero.string_of_int (Z.to_int z).

(** [sep.join(l)]. *)
Fixpoint join (sep : string) (l : list string) : string :=
  match l with
  | [] => ""
  | [x] => x
  | x :: rest => x ++ sep ++ join sep rest
  end.

(** [int(s)]: surrounding white space is skipped, one sign is allowed,
    then decimal digits, single underscores allowed between digits.
    [None] stands for [ValueError]. *)
Fixpoint lstrip (s : list ascii) : list ascii :=
  match s with
  | c :: s' => if is_int_space c then lstrip s' else s
  | [] => []
  end.

Definition strip (s : list ascii) : list ascii :=
  rev (lstrip (rev (lstrip s))).

Definition digit_value (c : ascii) : Z := Z.of_nat (nat_of_ascii c - 48).

Fixpoint parse_digits (s : list ascii) (acc : Z) (after_digit : bool)
  : option Z :=
  match s with
  | [] => if after_digit then Some acc else None
  | c :: s' =>
      if is_digit c then parse_digits s' (10 * acc + digit_value c) true
      else if (nat_of_ascii c =? 95)%nat
           then (if after_digit then parse_digits s' acc false else None)
           else None
  end.

Definition int (s : string) : option Z :=
  match strip (list_ascii_of_string s) with
  | "+"%char :: r => parse_digits r 0 false
  | "-"%char :: r => option_map Z.opp (parse_digits r 0 false)
  | r => parse_digits r 0 false
  end.

(** [a[k:]] for a list and an [int] start: a negative start counts from
    the end and is clipped at the first element. *)
Definition slice_from {A : Type} (k : Z) (a : list A) : list A :=
  let len := Z.of_nat (List.length a) in
  let start := if (k <? 0)%Z then Z.max 0 (len + k) else Z.min k len in
  skipn (Z.to_nat start) a.

(** [enumerate(l)]. *)
Definition enumerate {A : Type} (l : list A) : list (nat * A) :=
  combine (seq 0 (List.length l)) l.

End Py.

(* ================================================================== *)
(** * The data model: movie and filter dictionaries *)
(* ================================================================== *)

(** A catalog entry, as built by [_get_movie_details] (which sets
    ['release_date']) and [_get_tv_details] (which sets
    ['first_air_date']), or loaded from the JSON file.  Keys read with
    [dict.get] are optional. *)
Module Movie.
Record t : Type := mk {
  id : Z;
  title : string;
  overview : string;
  poster_path : string;
  release_date : option string;
  first_air_date : option string;
  genres : list string;
  language : option string;
  content_type : option string;
  document : string
}.
End Movie.

(** The value of [filters['year']]: an [int] when it comes from
    [extract_keywords_from_query], an [int] or a [str] when the request
    body overrides it. *)
Inductive year_value : Type :=
| YInt (y : Z)
| YStr (s : string).

(** The value of [filters['language']]: [region_keywords] maps a region
    to one code or to a list of codes. *)
Inductive language_value : Type :=
| LStr (code : string)
| LList (codes : list string).

(** The [filters] dictionary.  [other_keys] counts the keys that
    [_apply_filters] does not read; they only matter for the truth value
    of the dictionary. *)
Module Filters.
Record t : Type := mk {
  year : option year_value;
  genre : option string;
  language : option language_value;
  content_type : option string;
  time_period : option (Z * Z);
  other_keys : nat
}.

Definition empty : t := mk None None None None None 0.

(** Truth value of the dictionary: it has at least one key. *)
Definition nonempty (f : t) : bool :=
  match year f, genre f, language f, content_type f, time_period f,
        other_keys f with
  | None, None, None, None, None, O => false
  | _, _, _, _, _, _ => true
  end.
End Filters.

(** One element of the list returned by [recommend_movies]. *)
Module Recommendation.
Record t : Type := mk {
  id : Z;
  title : string;
  overview : string;
  poster_path : string;
  release_date : string;
  similarity_score : Q;
  content_type : string
}.
End Recommendation.

(* ================================================================== *)
(** * The filter evaluator: [_apply_filters] *)
(* ================================================================== *)

Definition str_of_year (y : year_value) : string :=
  match y with
  | YInt z => Py.str_of_int z
  | YStr s => s
  end.

(** [movie.get('language') != filters['language']]: a [str] (or [None])
    is never equal to a [list]. *)
Definition language_ne (l : option string) (v : language_value) : bool :=
  match l, v with
  | Some code, LStr code' => negb (String.eqb code code')
  | None, LStr _ => true
  | _, LList _ => true
  end.

(** [movie.get('content_type') != filters['content_type']]. *)
Definition content_type_ne (c : option string) (v : string) : bool :=
  match c with
  | Some c' => negb (String.eqb c' v)
  | None => true
  end.

(** The [year_str] of the year filter. *)
Definition year_str (movie : Movie.t) : string :=
  if Py.truthy (Movie.release_date movie) then
    match Movie.release_date movie with
    | Some d => Py.first4 d
    | None => ""
    end
  else if Py.truthy (Movie.first_air_date movie) then
    match Movie.first_air_date movie with
    | Some d => Py.first4 d
    | None => ""
    end
  else "".

(** The [year] of the time-period filter: [0] unless a date is present
    and its first four characters parse. *)
Definition period_year (movie : Movie.t) : Z :=
  let year := 0%Z in
  if Py.truthy (Movie.release_date movie) then
    match Movie.release_date movie with
    | Some d => match Py.int (Py.first4 d) with
                | Some y => y
                | None => year
                end
    | None => year
    end
  else if Py.truthy (Movie.first_air_date movie) then
    match Movie.first_air_date movie with
    | Some d => match Py.int (Py.first4 d) with
                | Some y => y
                | None => year
                end
    | None => year
    end
  else year.

(** The body of the loop of [_apply_filters]: the final value of the
    flag [include] for one movie. *)
Definition include (filters : Filters.t) (movie : Movie.t) : bool :=
  let include := true in
  (* Year filter *)
  let include :=
    match Filters.year filters with
    | Some y =>
        if negb (String.eqb (year_str movie) (str_of_year y))
        then false else include
    | None => include
    end in
  (* Genre filter *)
  let include :=
    match Filters.genre filters with
    | Some g =>
        if include then
          if negb (existsb (fun genre => String.eqb (Py.lower genre) (Py.lower g))
                           (Movie.genres movie))
          then false else include
        else include
    | None => include
    end in
  (* Language filter *)
  let include :=
    match Filters.language filters with
    | Some l =>
        if include then
          if language_ne (Movie.language movie) l then false else include
        else include
    | None => include
    end in
  (* Content type filter *)
  let include :=
    match Filters.content_type filters with
    | Some c =>
        if include then
          if content_type_ne (Movie.content_type movie) c then false
          else include
        else include
    | None => include
    end in
  (* Time period filter *)
  let include :=
    match Filters.time_period filters with
    | Some (start_year, end_year) =>
        if include then
          let year := period_year movie in
          if negb ((start_year <=? year)%Z && (year <=? end_year)%Z)
          then false else include
        else include
    | None => include
    end in
  include.

(** [_apply_filters]: the indices of the movies whose flag is set, in
    catalog order. *)
Definition _apply_filters (movies : list Movie.t) (filters : Filters.t)
  : list nat :=
  map fst (filter (fun im => include filters (snd im)) (Py.enumerate movies)).

(* ================================================================== *)
(** * The query interpreter: the region pass *)
(* ================================================================== *)

(** The region pass of [extract_keywords_from_query]: [region_keywords]
    in dictionary order, and the search of [\bregion\b] in the
    lower-cased query.  The first region found sets
    [filters['language']]. *)
Definition region_keywords : list (string * language_value) :=
  [("hollywood", LStr "en");
   ("bollywood", LStr "hi");
   ("hindi", LStr "hi");
   ("tamil", LStr "ta");
   ("telugu", LStr "te");
   ("malayalam", LStr "ml");
   ("kannada", LStr "kn");
   ("south indian", LList ["ta"; "te"; "ml"; "kn"]);
   ("indian", LList ["hi"; "ta"; "te"; "ml"; "kn"])].

(** [\b] between two characters; [None] is an end of the text. *)
Definition word_boundary (before after : option ascii) : bool :=
  let w := fun c => match c with Some c => Py.is_word c | None => false end in
  xorb (w before) (w after).

(** The text after the literal [kw], with the last character read, when
    the text starts with [kw]. *)
Fixpoint match_literal (kw s : list ascii) (before : option ascii)
  : option (option ascii * list ascii) :=
  match kw, s with
  | [], _ => Some (before, s)
  | k :: kw', c :: s' =>
      if Ascii.eqb k c then match_literal kw' s' (Some c) else None
  | _ :: _, [] => None
  end.

(** [re.search(r'\b' + kw + r'\b', s)] finds a match. *)
Fixpoint search_word (kw s : list ascii) (before : option ascii) : bool :=
  let here :=
    match match_literal kw s before with
    | Some (last, rest) =>
        word_boundary before (hd_error s) && word_boundary last (hd_error rest)
    | None => false
    end in
  match s with
  | [] => here
  | c :: s' => here || search_word kw s' (Some c)
  end.

Definition extract_language (query : string) : option language_value :=
  let text := list_ascii_of_string (Py.lower query) in
  option_map snd
    (find (fun rl => search_word (list_ascii_of_string (fst rl)) text None)
          region_keywords).

(* ================================================================== *)
(** * The external libraries *)
(* ================================================================== *)

(** What [_preprocess_text] takes from NLTK: the English stop-word list,
    [word_tokenize] and [WordNetLemmatizer.lemmatize].  The stop-word
    list and the WordNet lemma data are not part of the repository; the
    normaliser is verified for any value of the three. *)
Record NLTK : Type := {
  stopwords_english : list string;
  word_tokenize : string -> list string;
  lemmatize : string -> string
}.

(** The order and the sign test on scores. *)
Definition Qlt_bool (x y : Q) : bool := negb (Qle_bool y x).

(** ** numpy: [ndarray.argsort] *)

(** What [recommend_movies] takes from numpy: [argsort] with its default
    kind.  It returns the indices of the array, in an order in which the
    elements are ascending.  The default kind is not a stable sort:
    where the array has equal elements, numpy does not fix the order of
    their indices.  The ranking is therefore verified for any [argsort]
    that sorts. *)
Record Numpy : Type := {
  argsort : list Q -> list nat;
  argsort_permutation :
    forall a, Permutation (argsort a) (seq 0 (List.length a));
  argsort_ascending :
    forall a,
      StronglySorted (fun i j => nth i a 0 <= nth j a 0) (argsort a)
}.

Module Np.

(** Two sorts for the examples, both insertion sorts.  On equal elements
    [stable_argsort] keeps the index order, as [argsort(kind='stable')]
    does, and [reversed_argsort] leaves the indices in descending
    order. *)
Fixpoint insert (x : nat * Q) (l : list (nat * Q)) : list (nat * Q) :=
  match l with
  | [] => [x]
  | y :: l' =>
      if Qle_bool (snd x) (snd y) then x :: y :: l' else y :: insert x l'
  end.

Fixpoint sort (l : list (nat * Q)) : list (nat * Q) :=
  match l with
  | [] => []
  | x :: l' => insert x (sort l')
  end.

Definition stable_argsort (a : list Q) : list nat :=
  map fst (sort (Py.enumerate a)).

Definition reversed_argsort (a : list Q) : list nat :=
  map fst (sort (rev (Py.enumerate a))).

End Np.

(** ** scikit-learn: [TfidfVectorizer.transform] and [cosine_similarity] *)

(** A fitted [TfidfVectorizer]: the term and the idf weight of each
    column of the term-document matrix. *)
Record TfidfVectorizer : Type := {
  columns : list (string * Q)
}.

Module Sk.

(** The default [token_pattern] [(?u)\b\w\w+\b] under [re.findall]:
    the maximal runs of word characters that are at least two
    characters long. *)
Definition flush (run : list ascii) : list string :=
  if (2 <=? List.length run)%nat
  then [string_of_list_ascii (rev run)] else [].

Fixpoint word_runs (s : list ascii) (run : list ascii) : list string :=
  match s with
  | [] => flush run
  | c :: s' =>
      if Py.is_word c then word_runs s' (c :: run)
      else flush run ++ word_runs s' []
  end.

(** The analyzer of the vectorizer: lower-case, then tokenize. *)
Definition analyze (doc : string) : list string :=
  word_runs (list_ascii_of_string (Py.lower doc)) [].

(** The raw tf-idf row of one document: term count times idf, for each
    column of the vocabulary; other terms are ignored. *)
Definition tfidf_row (v : TfidfVectorizer) (tokens : list string)
  : list Q :=
  map (fun col : string * Q =>
         inject_Z (Z.of_nat (count_occ string_dec tokens (fst col)))
         * snd col)
      (columns v).

Section Norm.

(** The square root of the floating-point unit. *)
Variable sqrt : Q -> Q.

(** [sklearn.preprocessing.normalize(X, norm='l2')] on one row: a
    zero norm is replaced by 1. *)
Definition row_norm (x : list Q) : Q :=
  sqrt (fold_right Qplus 0 (map (fun c => c * c) x)).

Definition normalize (x : list Q) : list Q :=
  let norm := row_norm x in
  let norm := if Qeq_bool norm 0 then 1 else norm in
  map (fun c => c / norm) x.

(** [TfidfVectorizer.transform([doc])]. *)
Definition transform (v : TfidfVectorizer) (doc : string) : list Q :=
  normalize (tfidf_row v (analyze doc)).

Definition dot (x y : list Q) : Q :=
  fold_right Qplus 0 (map (fun p : Q * Q => fst p * snd p) (combine x y)).

(** [cosine_similarity(x, Y).flatten()] for a single row [x]. *)
Definition cosine_similarity (x : list Q) (Y : list (list Q)) : list Q :=
  let x_normalized := normalize x in
  map (fun y => dot x_normalized (normalize y)) Y.

End Norm.

End Sk.

(* ================================================================== *)
(** * The document normaliser: [_preprocess_text] *)
(* ================================================================== *)

(** [re.sub(r'[^\w\s]', ' ', text)]. *)
Definition sub_special (s : list ascii) : list ascii :=
  map (fun c => if Py.is_word c || Py.is_space c then c else " "%char) s.

(** [re.sub(r'\d+', ' ', text)]: every maximal run of digits becomes one
    space. *)
Fixpoint sub_digits (s : list ascii) (in_run : bool) : list ascii :=
  match s with
  | [] => []
  | c :: s' =>
      if Py.is_digit c
      then (if in_run then sub_digits s' true
            else " "%char :: sub_digits s' true)
      else c :: sub_digits s' false
  end.

(** The text handed to [word_tokenize]. *)
Definition clean (text : string) : string :=
  let text := Py.lower text in
  let text := sub_special (list_ascii_of_string text) in
  let text := sub_digits text false in
  string_of_list_ascii text.

Definition in_stop_words (nltk : NLTK) (token : string) : bool :=
  if in_dec string_dec token (stopwords_english nltk) then true else false.

(** The token list that [_preprocess_text] joins. *)
Definition preprocess_tokens (nltk : NLTK) (text : string) : list string :=
  let tokens := word_tokenize nltk (clean text) in
  let tokens := filter (fun token => negb (in_stop_words nltk token)) tokens in
  map (lemmatize nltk) tokens.

Definition _preprocess_text (nltk : NLTK) (text : string) : string :=
  match text with
  | EmptyString => ""
  | _ => Py.join " " (preprocess_tokens nltk text)
  end.

(* ================================================================== *)
(** * The ranking engine: [recommend_movies] *)
(* ================================================================== *)

(** The state of a [MovieRecommender] after [_prepare_tfidf]. *)
Record MovieRecommender : Type := {
  movies : list Movie.t;
  vectorizer : TfidfVectorizer;
  tfidf_matrix : list (list Q)
}.

(** [mask = np.ones(len(a)); mask[filtered_indices] = False; a[mask] = 0].
    An index outside the array raises [IndexError]. *)
Definition zero_unless_in (filtered_indices : list nat) (a : list Q)
  : option (list Q) :=
  if forallb (fun i => (i <? List.length a)%nat) filtered_indices
  then Some (map (fun ix : nat * Q =>
                    if existsb (Nat.eqb (fst ix)) filtered_indices
                    then snd ix else 0)
                 (Py.enumerate a))
  else None.

(** The dictionary appended for one movie. *)
Definition recommendation (movie : Movie.t) (score : Q) : Recommendation.t :=
  {| Recommendation.id := Movie.id movie;
     Recommendation.title := Movie.title movie;
     Recommendation.overview := Movie.overview movie;
     Recommendation.poster_path := Movie.poster_path movie;
     Recommendation.release_date :=
       match Movie.release_date movie with
       | Some d => d
       | None => match Movie.first_air_date movie with
                 | Some d => d
                 | None => ""
                 end
       end;
     Recommendation.similarity_score := score;
     Recommendation.content_type :=
       match Movie.content_type movie with
       | Some c => c
       | None => "movie"
       end |}.

(** The loop over [top_indices]; [self.movies[idx]] may raise. *)
Fixpoint recommendations (movies : list Movie.t) (cosine_similarities : list Q)
  (top_indices : list nat) : option (list Recommendation.t) :=
  match top_indices with
  | [] => Some []
  | idx :: rest =>
      let score := nth idx cosine_similarities 0 in
      if Qlt_bool 0 score then
        match nth_error movies idx with
        | Some movie =>
            option_map (cons (recommendation movie score))
                       (recommendations movies cosine_similarities rest)
        | None => None
        end
      else recommendations movies cosine_similarities rest
  end.

(** [cosine_similarities.argsort()[-n:][::-1]]. *)
Definition top_indices (np : Numpy) (cosine_similarities : list Q) (n : Z)
  : list nat :=
  rev (Py.slice_from (- n) (argsort np cosine_similarities)).

(** The truth value of the argument [filters], whose default is [None]. *)
Definition filters_given (filters : option Filters.t) : option Filters.t :=
  match filters with
  | Some f => if Filters.nonempty f then Some f else None
  | None => None
  end.

(** The scores after the filter step. *)
Definition apply_mask (movies : list Movie.t) (filters : option Filters.t)
  (cosine_similarities : list Q) : option (list Q) :=
  match filters_given filters with
  | Some f =>
      let filtered_indices := _apply_filters movies f in
      match filtered_indices with
      | _ :: _ => zero_unless_in filtered_indices cosine_similarities
      | [] => Some cosine_similarities
      end
  | None => Some cosine_similarities
  end.

(** Everything after the similarity computation. *)
Definition rank_scores (np : Numpy) (movies : list Movie.t)
  (cosine_similarities : list Q) (n : Z) (filters : option Filters.t)
  : option (list Recommendation.t) :=
  match apply_mask movies filters cosine_similarities with
  | Some cosine_similarities =>
      recommendations movies cosine_similarities
                      (top_indices np cosine_similarities n)
  | None => None
  end.

Section Recommender.

Variable nltk : NLTK.
Variable sqrt : Q -> Q.
Variable np : Numpy.

(** The scores of a query against the catalog. *)
Definition similarities (self : MovieRecommender) (query : string)
  : list Q :=
  let processed_query := _preprocess_text nltk query in
  let query_vec := Sk.transform sqrt (vectorizer self) processed_query in
  Sk.cosine_similarity sqrt query_vec (tfidf_matrix self).

Definition recommend_movies (self : MovieRecommender) (query : string)
  (n : Z) (filters : option Filters.t) : option (list Recommendation.t) :=
  rank_scores np (movies self) (similarities self query) n filters.

End Recommender.

(** The index has one row per movie, in catalog order: what
    [_prepare_tfidf] establishes. *)
Definition index_built (self : MovieRecommender) : Prop :=
  List.length (tfidf_matrix self) = List.length (movies self).

(* ================================================================== *)
(** * A small catalog and library instances for the examples *)
(* ================================================================== *)

Module Sample.

(** [str.split()]: what [word_tokenize] returns on text made of
    lower-case words and white space, contractions apart. *)
Fixpoint split_ws (s : list ascii) (word : list ascii) : list string :=
  let flush := match word with
               | [] => []
               | _ => [string_of_list_ascii (rev word)]
               end in
  match s with
  | [] => flush
  | c :: s' =>
      if Py.is_space c then flush ++ split_ws s' []
      else split_ws s' (c :: word)
  end.

Definition lookup_lemma (table : list (string * string)) (w : string)
  : string :=
  match find (fun p => String.eqb (fst p) w) table with
  | Some p => snd p
  | None => w
  end.

(** An excerpt of the NLTK tables: some entries of the English
    stop-word list, and some WordNet noun lemmas. *)
Definition nltk : NLTK := {|
  stopwords_english :=
    ["i"; "me"; "my"; "we"; "you"; "he"; "she"; "it"; "they"; "what";
     "which"; "who"; "this"; "that"; "am"; "is"; "are"; "was"; "were";
     "be"; "been"; "have"; "has"; "had"; "do"; "does"; "did"; "a"; "an";
     "the"; "and"; "but"; "if"; "or"; "as"; "of"; "at"; "by"; "for";
     "with"; "about"; "to"; "from"; "in"; "on"; "no"; "not"; "so";
     "than"; "too"; "very"; "can"; "will"; "just"; "should"; "now"];
  word_tokenize := fun text => split_ws (list_ascii_of_string text) [];
  lemmatize :=
    lookup_lemma [("cans", "can"); ("wills", "will"); ("movies", "movie");
                  ("films", "film"); ("games", "game"); ("shows", "show")]
|}.

(** A square root that is exact on the squares of rationals. *)
Definition sqrt (q : Q) : Q :=
  Z.sqrt (Qnum q * Z.pos (Qden q)) # Qden q.

Definition batman : Movie.t := {|
  Movie.id := 1; Movie.title := "Batman"; Movie.overview := "dark knight";
  Movie.poster_path := "/b.jpg";
  Movie.release_date := Some "2008-07-16"; Movie.first_air_date := None;
  Movie.genres := ["Action"]; Movie.language := Some "en";
  Movie.content_type := Some "movie";
  Movie.document := "batman dark knight action hollywood english" |}.

Definition dilwale : Movie.t := {|
  Movie.id := 2; Movie.title := "Dilwale"; Movie.overview := "romance";
  Movie.poster_path := "/d.jpg";
  Movie.release_date := Some "2015-12-18"; Movie.first_air_date := None;
  Movie.genres := ["Romance"]; Movie.language := Some "hi";
  Movie.content_type := Some "movie";
  Movie.document := "dilwale bollywood hindi romance" |}.

Definition sacred_games : Movie.t := {|
  Movie.id := 3; Movie.title := "Sacred Games"; Movie.overview := "crime";
  Movie.poster_path := "/s.jpg";
  Movie.release_date := None; Movie.first_air_date := Some "2018-07-06";
  Movie.genres := ["Drama"]; Movie.language := Some "hi";
  Movie.content_type := Some "tv";
  Movie.document := "sacred games bollywood hindi web series tv show" |}.

(** A Tamil film, and an entry without any date. *)
Definition kaala : Movie.t := {|
  Movie.id := 4; Movie.title := "Kaala"; Movie.overview := "drama";
  Movie.poster_path := "/k.jpg";
  Movie.release_date := Some "2018-06-07"; Movie.first_air_date := None;
  Movie.genres := ["Action"; "Drama"]; Movie.language := Some "ta";
  Movie.content_type := Some "movie";
  Movie.document := "kaala tamil south indian" |}.

Definition undated : Movie.t := {|
  Movie.id := 5; Movie.title := "Untitled"; Movie.overview := "";
  Movie.poster_path := "";
  Movie.release_date := Some ""; Movie.first_air_date := None;
  Movie.genres := []; Movie.language := Some "en";
  Movie.content_type := Some "movie";
  Movie.document := "untitled movie film" |}.

(** An entry whose date is text that is not a date. *)
Definition announced : Movie.t := {|
  Movie.id := 6; Movie.title := "Announced"; Movie.overview := "";
  Movie.poster_path := "";
  Movie.release_date := Some "TBA 2031"; Movie.first_air_date := None;
  Movie.genres := []; Movie.language := Some "en";
  Movie.content_type := Some "movie";
  Movie.document := "announced movie film" |}.

(** The vocabulary has the columns batman, hindi, web, series. *)
Definition vocabulary : TfidfVectorizer :=
  {| columns := [("batman", 1); ("hindi", 1); ("web", 1); ("series", 1)] |}.

Definition recommender : MovieRecommender := {|
  movies := [batman; dilwale; sacred_games];
  vectorizer := vocabulary;
  tfidf_matrix := [[1; 0; 0; 0]; [0; 1; 0; 0]; [0; 1#3; 2#3; 2#3]]
|}.

(** Two entries with the same row, hence with tied scores. *)
Definition twins : MovieRecommender := {|
  movies := [dilwale; sacred_games];
  vectorizer := vocabulary;
  tfidf_matrix := [[0; 1; 0; 0]; [0; 1; 0; 0]]
|}.

Definition only_language (l : language_value) : Filters.t :=
  Filters.mk None None (Some l) None None 0.

Definition only_period (start_year end_year : Z) : Filters.t :=
  Filters.mk None None None None (Some (start_year, end_year)) 0.

End Sample.


(* ================================================================== *)
(** * The query interpreter: [extract_keywords_from_query] *)
(* ================================================================== *)

Definition genre_keywords : list string :=
  ["action"; "comedy"; "drama"; "horror"; "sci-fi"; "romance"; "thriller";
   "adventure"; "fantasy"; "animation"; "documentary"; "biography"].

Definition content_type_keywords : list (string * string) :=
  [("movie", "movie");
   ("film", "movie");
   ("web series", "tv");
   ("tv series", "tv");
   ("show", "tv");
   ("television", "tv");
   ("ott", "tv");
   ("streaming", "tv")].

Definition feeling_mapping : list (string * list string) :=
  [("happy", ["comedy"; "feel-good"; "uplifting"]);
   ("sad", ["drama"; "tragedy"; "emotional"]);
   ("scary", ["horror"; "thriller"; "suspense"]);
   ("exciting", ["action"; "adventure"; "thriller"]);
   ("thoughtful", ["drama"; "philosophical"; "thought-provoking"]);
   ("romantic", ["romance"; "love story"; "romantic comedy"])].

(** [19\d{2}|20\d{2}] at the head of the text: the four characters
    matched and the rest. *)
Definition year_prefix (s : list ascii)
  : option (list ascii * list ascii) :=
  match s with
  | c1 :: c2 :: c3 :: c4 :: rest =>
      if ((Ascii.eqb c1 "1" && Ascii.eqb c2 "9")
          || (Ascii.eqb c1 "2" && Ascii.eqb c2 "0"))
         && Py.is_digit c3 && Py.is_digit c4
      then Some ([c1; c2; c3; c4], rest)
      else None
  | _ => None
  end.

(** [re.search(year_pattern, s).group()], for
    [year_pattern = r'\b(19\d{2}|20\d{2})\b']: the leftmost match. *)
Fixpoint search_year (s : list ascii) (before : option ascii)
  : option string :=
  let here :=
    match year_prefix s with
    | Some (y, rest) =>
        if word_boundary before (hd_error s)
           && word_boundary (nth_error y 3) (hd_error rest)
        then Some (string_of_list_ascii y) else None
    | None => None
    end in
  match here with
  | Some y => Some y
  | None =>
      match s with
      | [] => None
      | c :: s' => search_year s' (Some c)
      end
  end.

(** [re.search(r'\b' + kw + r'\b', query.lower())]. *)
Definition mentions (query : string) (kw : string) : bool :=
  search_word (list_ascii_of_string kw)
              (list_ascii_of_string (Py.lower query)) None.

(** [extract_keywords_from_query]: the enhanced query and the filters.
    [None] stands for the [ValueError] of [int]. *)
Definition extract_keywords_from_query (query : string)
  : option (string * Filters.t) :=
  (* Extract year *)
  let year :=
    match search_year (list_ascii_of_string query) None with
    | Some year_match =>
        match Py.int year_match with
        | Some y => Some (Some (YInt y))
        | None => None
        end
    | None => Some None
    end in
  match year with
  | None => None
  | Some year =>
      (* Extract genre *)
      let genre := find (mentions query) genre_keywords in
      (* Extract region/language *)
      let language := extract_language query in
      (* Extract content type *)
      let content_type :=
        option_map snd
          (find (fun kv => mentions query (fst kv)) content_type_keywords) in
      (* Extract feeling/mood *)
      let query :=
        match find (fun fk => mentions query (fst fk)) feeling_mapping with
        | Some (_, keywords) => (query ++ " " ++ Py.join " " keywords)%string
        | None => query
        end in
      Some (query, Filters.mk year genre language content_type None 0)
  end.

(* ================================================================== *)
(** * The endpoint [/api/recommend] *)
(* ================================================================== *)

(** The value of the key ['n'] of the request body: an integer or a
    string. *)
Inductive n_value : Type :=
| NInt (z : Z)
| NStr (s : string).

(** The JSON body of the request; every key is optional.  The record
    holds the bodies whose values have the types that the view and the
    filter evaluator are written for: a string for ['query'] and
    ['genre'], an integer or a string for ['n'] and ['year'], a string
    or a list of strings for ['language'], a string for
    ['content_type'].  A body with a value of another type (a number
    for ['query'] or ['genre'], [null] for ['n']) makes the view raise
    [TypeError] or [AttributeError]; such bodies are not represented,
    and what is proved of [recommend] is proved of the bodies above. *)
Module Request.
Record t : Type := mk {
  query : option string;
  n : option n_value;
  year : option year_value;
  genre : option string;
  language : option language_value;
  content_type : option string
}.
End Request.

(** The answer of the endpoint: the error 400, or the JSON object. *)
Inductive response : Type :=
| NoQueryProvided
| Recommended (original_query enhanced_query : string)
              (filters_applied : Filters.t)
              (recommendations : list Recommendation.t).

(** [int(data.get('n', 10))]. *)
Definition requested_n (data : Request.t) : option Z :=
  match Request.n data with
  | Some (NInt z) => Some z
  | Some (NStr s) => Py.int s
  | None => Some 10%Z
  end.

(** [if filter_key in data: filters[filter_key] = data[filter_key]]. *)
Definition override {A : Type} (explicit interpreted : option A) : option A :=
  match explicit with
  | Some v => Some v
  | None => interpreted
  end.

Definition override_filters (data : Request.t) (filters : Filters.t)
  : Filters.t :=
  {| Filters.year := override (Request.year data) (Filters.year filters);
     Filters.genre := override (Request.genre data) (Filters.genre filters);
     Filters.language :=
       override (Request.language data) (Filters.language filters);
     Filters.content_type :=
       override (Request.content_type data) (Filters.content_type filters);
     Filters.time_period := Filters.time_period filters;
     Filters.other_keys := Filters.other_keys filters |}.

(** The view function [recommend]; [None] stands for an exception. *)
Definition recommend (nltk : NLTK) (sqrt : Q -> Q) (np : Numpy)
  (recommender : MovieRecommender) (data : Request.t) : option response :=
  let query := match Request.query data with Some q => q | None => "" end in
  match requested_n data with
  | None => None
  | Some n =>
      match query with
      | EmptyString => Some NoQueryProvided
      | _ =>
          match extract_keywords_from_query query with
          | None => None
          | Some (enhanced_query, filters) =>
              let filters := override_filters data filters in
              match recommend_movies nltk sqrt np recommender
                                     enhanced_query n (Some filters) with
              | Some recommendations =>
                  Some (Recommended query enhanced_query filters
                                    recommendations)
              | None => None
              end
          end
      end
  end.

(** [get_movie]: the first entry with the id, or the error 404 ([None]). *)
Definition get_movie (recommender : MovieRecommender) (movie_id : Z)
  : option Movie.t :=
  find (fun movie => Z.eqb (Movie.id movie) movie_id) (movies recommender).

(* ================================================================== *)
(** * Ingestion: [_get_movie_details] and [_process_movie_results] *)
(* ================================================================== *)

(** The JSON object that TMDB returns for a movie, as far as
    [_get_movie_details] reads it: [crew] holds the job and the name of
    each person, [cast] the name of each actor. *)
Module Tmdb.
Record movie : Type := mk {
  title : string;
  original_title : string;
  overview : string;
  release_date : string;
  original_language : string;
  genres : list string;
  crew : list (option string * option string);
  cast : list (option string);
  keywords : list string;
  poster_path : string
}.
End Tmdb.

(** One element of the ['results'] of a list request. *)
Module Result.
Record t : Type := mk {
  id : option Z;
  genre_tag : option string;
  language_tag : option string
}.
End Result.

(** The part of the object under construction that the fetch functions
    use: [self.movies] and [self.unique_movie_ids]. *)
Module Fetch.
Record state : Type := mk {
  movies : list Movie.t;
  unique_movie_ids : list Z
}.
End Fetch.

(** The name of the first person whose job is ['Director']. *)
Definition director_of (crew : list (option string * option string))
  : string :=
  match find (fun person => match fst person with
                            | Some job => String.eqb job "Director"
                            | None => false
                            end) crew with
  | Some (_, Some name) => name
  | _ => ""
  end.

(** The names of the first ten actors, those without a name left out. *)
Definition top_cast (actors : list (option string)) : list string :=
  flat_map (fun actor => match actor with
                         | Some (String c name) => [String c name]
                         | _ => []
                         end)
           (firstn 10 actors).

Definition language_identifiers (original_language : string) : string :=
  if String.eqb original_language "en" then "english hollywood international "
  else if String.eqb original_language "hi" then "hindi bollywood indian "
  else if String.eqb original_language "ta" then "tamil south indian "
  else if String.eqb original_language "te" then "telugu south indian "
  else if String.eqb original_language "ml" then "malayalam south indian "
  else if String.eqb original_language "kn" then "kannada south indian "
  else "".

(** The dictionary [movie_data] that [_get_movie_details] builds from
    the response. *)
Definition movie_data (movie_id : Z) (data : Tmdb.movie) : Movie.t :=
  let release_date := Tmdb.release_date data in
  let document :=
    (Tmdb.title data ++ " " ++ Tmdb.original_title data ++ " "
     ++ Tmdb.overview data ++ " ")%string in
  let document :=
    (document ++ Py.join " " (Tmdb.genres data) ++ " "
     ++ director_of (Tmdb.crew data) ++ " "
     ++ Py.join " " (top_cast (Tmdb.cast data)) ++ " "
     ++ Py.join " " (Tmdb.keywords data) ++ " ")%string in
  let document :=
    (document
     ++ (if Py.truthy (Some release_date) then Py.first4 release_date else "")
     ++ " ")%string in
  let document := (document ++ "movie film ")%string in
  let document :=
    (document ++ language_identifiers (Tmdb.original_language data))%string in
  {| Movie.id := movie_id;
     Movie.title := Tmdb.title data;
     Movie.overview := Tmdb.overview data;
     Movie.poster_path := Tmdb.poster_path data;
     Movie.release_date := Some release_date;
     Movie.first_air_date := None;
     Movie.genres := Tmdb.genres data;
     Movie.language := Some (Tmdb.original_language data);
     Movie.content_type := Some "movie";
     Movie.document := document |}.

Definition add_to_document (movie : Movie.t) (text : string) : Movie.t :=
  {| Movie.id := Movie.id movie;
     Movie.title := Movie.title movie;
     Movie.overview := Movie.overview movie;
     Movie.poster_path := Movie.poster_path movie;
     Movie.release_date := Movie.release_date movie;
     Movie.first_air_date := Movie.first_air_date movie;
     Movie.genres := Movie.genres movie;
     Movie.language := Movie.language movie;
     Movie.content_type := Movie.content_type movie;
     Movie.document := (Movie.document movie ++ text)%string |}.

(** The tags that [_process_movie_results] appends to the document.
    [None] stands for the exception of [language.lower()] on a missing
    [language], which the loop catches. *)
Definition tag_details (is_bollywood is_south_indian : bool)
  (language : option string) (item : Result.t) (details : Movie.t)
  : option Movie.t :=
  let tagged :=
    if is_bollywood then Some (add_to_document details " bollywood hindi indian")
    else if is_south_indian then
      match language with
      | Some l =>
          Some (add_to_document details (" " ++ Py.lower l ++ " south indian"))
      | None => None
      end
    else Some details in
  match tagged with
  | Some details =>
      let details :=
        match Result.genre_tag item with
        | Some tag => add_to_document details (" " ++ tag)
        | None => details
        end in
      let details :=
        match Result.language_tag item with
        | Some tag => add_to_document details (" " ++ tag)
        | None => details
        end in
      Some details
  | None => None
  end.

Section Ingestion.

(** The answer of TMDB to the request for one movie: [None] when the
    status is not 200 or the request fails. *)
Variable tmdb_movie : Z -> option Tmdb.movie.

Definition _get_movie_details (movie_id : Z) (prefer_hindi : bool)
  : option Movie.t :=
  match tmdb_movie movie_id with
  | Some data =>
      if prefer_hindi
         && negb (String.eqb (Tmdb.original_language data) "hi")
      then None
      else Some (movie_data movie_id data)
  | None => None
  end.

(** The details to append for one element of the results, if any. *)
Definition new_entry (ids : list Z) (is_bollywood is_south_indian : bool)
  (language : option string) (item : Result.t) : option (Z * Movie.t) :=
  match Result.id item with
  | Some movie_id =>
      if negb (Z.eqb movie_id 0) && negb (existsb (Z.eqb movie_id) ids) then
        match _get_movie_details movie_id false with
        | Some movie_details =>
            match tag_details is_bollywood is_south_indian language item
                              movie_details with
            | Some movie_details => Some (movie_id, movie_details)
            | None => None
            end
        | None => None
        end
      else None
  | None => None
  end.

(** One turn of the loop of [_process_movie_results], on the state and
    the counter. *)
Definition process_result (is_bollywood is_south_indian : bool)
  (language : option string) (acc : Fetch.state * nat) (item : Result.t)
  : Fetch.state * nat :=
  let (self, count) := acc in
  match new_entry (Fetch.unique_movie_ids self) is_bollywood is_south_indian
                  language item with
  | Some (movie_id, movie_details) =>
      ({| Fetch.movies := Fetch.movies self ++ [movie_details];
          Fetch.unique_movie_ids := movie_id :: Fetch.unique_movie_ids self |},
       S count)
  | None => (self, count)
  end.

(** [_process_movie_results]: the state after the call and the count
    that the call prints. *)
Definition _process_movie_results (self : Fetch.state)
  (results : list Result.t) (is_bollywood is_south_indian : bool)
  (language : option string) : Fetch.state * nat :=
  fold_left (process_result is_bollywood is_south_indian language)
            results (self, 0%nat).

End Ingestion.

(** The ids of [self.movies] are pairwise distinct and all recorded in
    [self.unique_movie_ids]. *)
Definition ids_tracked (self : Fetch.state) : Prop :=
  NoDup (map Movie.id (Fetch.movies self)) /\
  incl (map Movie.id (Fetch.movies self)) (Fetch.unique_movie_ids self).

(* ================================================================== *)
(** * Sample data for the ingestion *)
(* ================================================================== *)

(** A small TMDB and a page of results for the examples. *)
Module SampleFetch.

Definition inception : Tmdb.movie := {|
  Tmdb.title := "Inception"; Tmdb.original_title := "Inception";
  Tmdb.overview := "A thief who steals secrets";
  Tmdb.release_date := "2010-07-15"; Tmdb.original_language := "en";
  Tmdb.genres := ["Action"; "Science Fiction"];
  Tmdb.crew := [(Some "Producer", Some "Emma Thomas");
                (Some "Director", Some "Christopher Nolan")];
  Tmdb.cast := [Some "Leonardo DiCaprio"; Some ""; None; Some "Elliot Page"];
  Tmdb.keywords := ["dream"; "heist"];
  Tmdb.poster_path := "/i.jpg" |}.

Definition tmdb (movie_id : Z) : option Tmdb.movie :=
  if Z.eqb movie_id 27205 then Some inception else None.

Definition start : Fetch.state :=
  {| Fetch.movies := [Sample.dilwale]; Fetch.unique_movie_ids := [2%Z] |}.

Definition page : list Result.t :=
  [Result.mk (Some 27205%Z) (Some "action") None;
   Result.mk (Some 2%Z) None None;
   Result.mk None None None;
   Result.mk (Some 0%Z) None None;
   Result.mk (Some 27205%Z) None None;
   Result.mk (Some 99%Z) None None].

End SampleFetch.

(* ================================================================== *)
(** * The endpoint [/api/stats] and the counts of
      [_fetch_additional_data] *)
(* ================================================================== *)

(** [v == s] for the result [v] of [dict.get]. *)
Definition is_str (v : option string) (s : string) : bool :=
  match v with
  | Some x => String.eqb x s
  | None => false
  end.

(** [sum(1 for movie in movies if p(movie))]. *)
Definition count_where (p : Movie.t -> bool) (movies : list Movie.t) : nat :=
  List.length (filter p movies).

Definition south_indian_language (movie : Movie.t) : bool :=
  match Movie.language movie with
  | Some l => existsb (String.eqb l) ["ta"; "te"; "ml"; "kn"]
  | None => false
  end.

Section Counter.

Context {K : Type}.
Variable eqb : K -> K -> bool.

(** [d[k] = d.get(k, 0) + 1] on a dictionary kept as the list of its
    items in insertion order. *)
Fixpoint increment (k : K) (d : list (K * nat)) : list (K * nat) :=
  match d with
  | [] => [(k, 1%nat)]
  | (k', c) :: d' =>
      if eqb k' k then (k', S c) :: d' else (k', c) :: increment k d'
  end.

Definition count_keys (keys : list K) : list (K * nat) :=
  fold_left (fun d k => increment k d) keys [].

End Counter.

Section Sorted.

Context {A : Type}.
Variable leb : A -> A -> bool.

(** [sorted]: a stable sort, written as an insertion sort. *)
Fixpoint insort (x : A) (l : list A) : list A :=
  match l with
  | [] => [x]
  | y :: l' => if leb x y then x :: y :: l' else y :: insort x l'
  end.

Fixpoint sorted_by (l : list A) : list A :=
  match l with
  | [] => []
  | x :: l' => insort x (sorted_by l')
  end.

End Sorted.

(** The year that [get_stats] and [get_filters] read from an entry;
    [None] is the [None] of the source. *)
Definition stats_year (movie : Movie.t) : option Z :=
  if Py.truthy (Movie.release_date movie) then
    match Movie.release_date movie with
    | Some d => Py.int (Py.first4 d)
    | None => None
    end
  else if Py.truthy (Movie.first_air_date movie) then
    match Movie.first_air_date movie with
    | Some d => Py.int (Py.first4 d)
    | None => None
    end
  else None.

(** The years counted: [if year:] leaves out [None] and 0. *)
Definition counted_years (movies : list Movie.t) : list Z :=
  flat_map (fun movie => match stats_year movie with
                         | Some y => if Z.eqb y 0 then [] else [y]
                         | None => []
                         end) movies.

(** The order of [sorted] with [key=lambda x: x[1], reverse=True]. *)
Definition by_count_desc (a b : string * nat) : bool :=
  (snd b <=? snd a)%nat.

(** The order of tuples [(year, count)]. *)
Definition by_year (a b : Z * nat) : bool :=
  (fst a <? fst b)%Z || ((fst a =? fst b)%Z && (snd a <=? snd b)%nat).

(** The object that [get_stats] hands to [jsonify]. *)
Module Stats.
Record t : Type := mk {
  total_count : nat;
  movies : nat;
  tv_shows : nat;
  hollywood : nat;
  bollywood : nat;
  south_indian : nat;
  top_genres : list (string * nat);
  year_distribution : list (Z * nat)
}.
End Stats.

Definition get_stats (recommender : MovieRecommender) : Stats.t :=
  let movies := movies recommender in
  let genre_counts := count_keys String.eqb (flat_map Movie.genres movies) in
  let year_counts := count_keys Z.eqb (counted_years movies) in
  {| Stats.total_count := List.length movies;
     Stats.movies :=
       count_where (fun m => is_str (Movie.content_type m) "movie") movies;
     Stats.tv_shows :=
       count_where (fun m => is_str (Movie.content_type m) "tv") movies;
     Stats.hollywood :=
       count_where (fun m => is_str (Movie.content_type m) "movie"
                             && is_str (Movie.language m) "en") movies;
     Stats.bollywood :=
       count_where (fun m => is_str (Movie.language m) "hi") movies;
     Stats.south_indian := count_where south_indian_language movies;
     Stats.top_genres := firstn 15 (sorted_by by_count_desc genre_counts);
     Stats.year_distribution := sorted_by by_year year_counts |}.

(** The key ['years'] of the answer of [get_filters]:
    [sorted(list(years))] for the set of the years counted. *)
Definition filter_years (recommender : MovieRecommender) : list Z :=
  sorted_by Z.leb (nodup Z.eq_dec (counted_years (movies recommender))).

(** The four counts at the head of [_fetch_additional_data]:
    Hollywood, Bollywood, South Indian, web series. *)
Definition category_counts (movies : list Movie.t) : nat * nat * nat * nat :=
  fold_left
    (fun counts movie =>
       let '(hollywood_count, bollywood_count, south_indian_count,
             web_series_count) := counts in
       let content_type := match Movie.content_type movie with
                           | Some c => c
                           | None => "movie"
                           end in
       let language := match Movie.language movie with
                       | Some l => l
                       | None => "unknown"
                       end in
       if String.eqb content_type "tv" then
         (hollywood_count, bollywood_count, south_indian_count,
          S web_series_count)
       else if String.eqb language "hi" then
         (hollywood_count, S bollywood_count, south_indian_count,
          web_series_count)
       else if existsb (String.eqb language) ["ta"; "te"; "ml"; "kn"] then
         (hollywood_count, bollywood_count, S south_indian_count,
          web_series_count)
       else
         (S hollywood_count, bollywood_count, south_indian_count,
          web_series_count))
    movies (0, 0, 0, 0)%nat.

(* ================================================================== *)
(** * Notions used in the statements *)
(* ================================================================== *)

(** The test of the loop of [recommend_movies]. *)
Definition positive_at (cs : list Q) (idx : nat) : bool :=
  Qlt_bool 0 (nth idx cs 0).

(** The indices for which the loop appends a dictionary, in order. *)
Definition selected_indices (np : Numpy) (cs : list Q) (n : Z) : list nat :=
  filter (positive_at cs) (top_indices np cs n).

(** [r] is the dictionary appended for index [idx]. *)
Definition result_at (movies : list Movie.t) (cs : list Q) (idx : nat)
  (r : Recommendation.t) : Prop :=
  exists movie,
    nth_error movies idx = Some movie /\
    r = recommendation movie (nth idx cs 0).

(** A vector or an array of scores that is zero everywhere. *)
Definition all_zero (x : list Q) : Prop := Forall (fun c => c == 0) x.

(** The date that the time-period filter reads: the release date when it
    is present and not empty, else the first-air date when it is. *)
Definition period_date (movie : Movie.t) : option string :=
  if Py.truthy (Movie.release_date movie) then Movie.release_date movie
  else if Py.truthy (Movie.first_air_date movie)
       then Movie.first_air_date movie
       else None.

(** The date is missing, or its first four characters are not an
    integer. *)
Definition year_unparsable (movie : Movie.t) : Prop :=
  match period_date movie with
  | Some d => Py.int (Py.first4 d) = None
  | None => True
  end.

(** The five tests of [_apply_filters], one per key. *)
Definition year_ok (f : Filters.t) (movie : Movie.t) : bool :=
  match Filters.year f with
  | Some y => String.eqb (year_str movie) (str_of_year y)
  | None => true
  end.

Definition genre_ok (f : Filters.t) (movie : Movie.t) : bool :=
  match Filters.genre f with
  | Some g => existsb (fun genre => String.eqb (Py.lower genre) (Py.lower g))
                      (Movie.genres movie)
  | None => true
  end.

Definition language_ok (f : Filters.t) (movie : Movie.t) : bool :=
  match Filters.language f with
  | Some l => negb (language_ne (Movie.language movie) l)
  | None => true
  end.

Definition content_type_ok (f : Filters.t) (movie : Movie.t) : bool :=
  match Filters.content_type f with
  | Some c => negb (content_type_ne (Movie.content_type movie) c)
  | None => true
  end.

Definition period_ok (f : Filters.t) (movie : Movie.t) : bool :=
  match Filters.time_period f with
  | Some (start_year, end_year) =>
      (start_year <=? period_year movie)%Z && (period_year movie <=? end_year)%Z
  | None => true
  end.

(** A character that the three rewriting steps of [_preprocess_text]
    leave alone inside a word: a lower-case letter or the underscore. *)
Definition is_plain (c : ascii) : bool :=
  Py.is_lower c || (nat_of_ascii c =? 95)%nat.

(** A token made of such characters. *)
Definition plain_word (t : string) : Prop :=
  forallb is_plain (list_ascii_of_string t) = true.

(** A character of a text made of plain words and single spaces. *)
Definition is_settled (c : ascii) : bool :=
  is_plain c || (nat_of_ascii c =? 32)%nat.

(** [f2] has every key of [f1], with the same value. *)
Definition narrows (f1 f2 : Filters.t) : Prop :=
  (Filters.year f1 = None \/ Filters.year f2 = Filters.year f1) /\
  (Filters.genre f1 = None \/ Filters.genre f2 = Filters.genre f1) /\
  (Filters.language f1 = None \/ Filters.language f2 = Filters.language f1) /\
  (Filters.content_type f1 = None \/
   Filters.content_type f2 = Filters.content_type f1) /\
  (Filters.time_period f1 = None \/
   Filters.time_period f2 = Filters.time_period f1).

(** The value of a decimal numeral read after the accumulator [acc]. *)
Fixpoint uint_value (d : Decimal.uint) (acc : Z) : Z :=
  match d with
  | Decimal.Nil => acc
  | Decimal.D0 d => uint_value d (10 * acc + 0)
  | Decimal.D1 d => uint_value d (10 * acc + 1)
  | Decimal.D2 d => uint_value d (10 * acc + 2)
  | Decimal.D3 d => uint_value d (10 * acc + 3)
  | Decimal.D4 d => uint_value d (10 * acc + 4)
  | Decimal.D5 d => uint_value d (10 * acc + 5)
  | Decimal.D6 d => uint_value d (10 * acc + 6)
  | Decimal.D7 d => uint_value d (10 * acc + 7)
  | Decimal.D8 d => uint_value d (10 * acc + 8)
  | Decimal.D9 d => uint_value d (10 * acc + 9)
  end.

Definition uint_chars (d : Decimal.uint) : list ascii :=
  list_ascii_of_string (NilEmpty.string_of_uint d).

(** A character that can occur in the text handed to the tokenizer: a
    lower-case letter, the underscore, or white space. *)
Definition is_normal_char (c : ascii) : bool :=
  is_plain c || Py.is_space c.

(** [d.get(k, 0)]. *)
Definition get_count {K : Type} (eqb : K -> K -> bool) (d : list (K * nat))
  (k : K) : nat :=
  match find (fun p => eqb (fst p) k) d with
  | Some p => snd p
  | None => 0%nat
  end.

(* ================================================================== *)
(** * Facts about lists and sorted lists *)
(* ================================================================== *)

Section ListFacts.

Context {A : Type}.
Variable R : A -> A -> Prop.

Lemma StronglySorted_app_r (l1 l2 : list A) :
  StronglySorted R (l1 ++ l2) -> StronglySorted R l2.
Proof.
  induction l1 as [|a l1 IH]; simpl; intros H; [exact H|].
  apply StronglySorted_inv in H. apply IH, H.
Qed.

Lemma StronglySorted_app_cross (l1 l2 : list A) x y :
  StronglySorted R (l1 ++ l2) -> In x l1 -> In y l2 -> R x y.
Proof.
  induction l1 as [|a l1 IH]; simpl; intros H Hx Hy; [contradiction|].
  apply StronglySorted_inv in H. destruct H as [Hs Hall].
  destruct Hx as [->|Hx].
  - rewrite Forall_forall in Hall. apply Hall, in_or_app. now right.
  - now apply IH.
Qed.

Lemma StronglySorted_snoc (l : list A) x :
  StronglySorted R l -> Forall (fun y => R y x) l ->
  StronglySorted R (l ++ [x]).
Proof.
  induction l as [|a l IH]; simpl; intros Hs Hall.
  - constructor; constructor.
  - apply StronglySorted_inv in Hs. destruct Hs as [Hs Ha].
    inversion Hall as [|? ? Hax Hall']; subst.
    constructor; [now apply IH|].
    apply Forall_app. split; [exact Ha|]. constructor; [exact Hax|constructor].
Qed.

Lemma StronglySorted_filter (f : A -> bool) (l : list A) :
  StronglySorted R l -> StronglySorted R (filter f l).
Proof.
  induction 1 as [|a l Hs IH Hall]; simpl; [constructor|].
  destruct (f a); [|exact IH].
  constructor; [exact IH|].
  rewrite Forall_forall in *. intros y Hy.
  apply filter_In in Hy. apply Hall, Hy.
Qed.

End ListFacts.

Lemma StronglySorted_rev {A : Type} (R : A -> A -> Prop) (l : list A) :
  StronglySorted R l -> StronglySorted (fun x y => R y x) (rev l).
Proof.
  induction 1 as [|a l Hs IH Hall]; simpl; [constructor|].
  apply StronglySorted_snoc; [exact IH|].
  rewrite Forall_forall in *. intros y Hy. apply Hall. now apply in_rev.
Qed.

Lemma StronglySorted_Forall2 {A B : Type} (RA : A -> A -> Prop)
  (RB : B -> B -> Prop) (T : A -> B -> Prop) (la : list A) (lb : list B) :
  (forall a a' b b', T a b -> T a' b' -> RA a a' -> RB b b') ->
  Forall2 T la lb -> StronglySorted RA la -> StronglySorted RB lb.
Proof.
  intros Hmono HT. induction HT as [|a b la lb Hab HT IH]; intros Hs.
  - constructor.
  - apply StronglySorted_inv in Hs. destruct Hs as [Hs Hall].
    constructor; [now apply IH|].
    clear IH Hs. induction HT as [|a' b' la lb Hab' HT IH]; constructor.
    + inversion Hall; subst. eapply Hmono; eassumption.
    + apply IH. now inversion Hall.
Qed.

Lemma slice_from_suffix {A : Type} (k : Z) (l : list A) :
  exists pre, l = pre ++ Py.slice_from k l.
Proof.
  unfold Py.slice_from. eexists. symmetry. apply firstn_skipn.
Qed.

Lemma slice_from_length {A : Type} (n : Z) (l : list A) :
  (0 < n)%Z -> (Z.of_nat (List.length (Py.slice_from (- n) l)) <= n)%Z.
Proof.
  intros Hn. unfold Py.slice_from.
  assert (Hneg : (- n <? 0)%Z = true) by (apply Z.ltb_lt; lia).
  rewrite Hneg, length_skipn. lia.
Qed.

(* ================================================================== *)
(** * Facts about [argsort] *)
(* ================================================================== *)

Lemma argsort_in np (a : list Q) i :
  In i (argsort np a) <-> (i < List.length a)%nat.
Proof.
  split; intros H.
  - eapply Permutation_in in H; [|apply argsort_permutation].
    apply in_seq in H. lia.
  - eapply Permutation_in; [symmetry; apply argsort_permutation|].
    apply in_seq. lia.
Qed.

Lemma argsort_NoDup np (a : list Q) : NoDup (argsort np a).
Proof.
  eapply Permutation_NoDup; [symmetry; apply argsort_permutation|].
  apply seq_NoDup.
Qed.

(** ** The two sorts of the examples meet the interface *)

Lemma insert_perm x l : Permutation (Np.insert x l) (x :: l).
Proof.
  induction l as [|y l IH]; simpl; [reflexivity|].
  destruct (Qle_bool (snd x) (snd y)); [reflexivity|].
  rewrite IH. apply perm_swap.
Qed.

Lemma sort_perm l : Permutation (Np.sort l) l.
Proof.
  induction l as [|x l IH]; simpl; [reflexivity|].
  rewrite insert_perm. now constructor.
Qed.

Lemma insert_ascending x l :
  StronglySorted (fun p q => snd p <= snd q) l ->
  StronglySorted (fun p q => snd p <= snd q) (Np.insert x l).
Proof.
  induction 1 as [|y l Hs IH Hall]; simpl.
  - constructor; constructor.
  - destruct (Qle_bool (snd x) (snd y)) eqn:Hle.
    + apply Qle_bool_iff in Hle.
      constructor; [now constructor|].
      constructor; [exact Hle|].
      rewrite Forall_forall in *. intros z Hz.
      eapply Qle_trans; [exact Hle|]. now apply Hall.
    + assert (Hyx : snd y <= snd x).
      { apply Qlt_le_weak, Qnot_le_lt. intros H.
        apply Qle_bool_iff in H. congruence. }
      constructor; [exact IH|].
      eapply Permutation_Forall; [symmetry; apply insert_perm|].
      constructor; [exact Hyx|exact Hall].
Qed.

Lemma sort_ascending l :
  StronglySorted (fun p q => snd p <= snd q) (Np.sort l).
Proof.
  induction l as [|x l IH]; simpl; [constructor|].
  now apply insert_ascending.
Qed.

Lemma enumerate_nth (a : list Q) (k : nat) i s :
  In (i, s) (combine (seq k (List.length a)) a) ->
  (k <= i)%nat /\ nth_error a (i - k) = Some s.
Proof.
  revert k. induction a as [|t a IH]; intros k; simpl; [contradiction|].
  intros [H|H].
  - inversion H; subst. rewrite Nat.sub_diag. now split.
  - apply IH in H. destruct H as [Hk Hn]. split; [lia|].
    replace (i - k)%nat with (S (i - S k)) by lia. exact Hn.
Qed.

Lemma enumerate_fst {B : Type} (l : list B) :
  map fst (Py.enumerate l) = seq 0 (List.length l).
Proof.
  unfold Py.enumerate. generalize 0%nat.
  induction l as [|x l IH]; intros k; simpl; [reflexivity|].
  now rewrite IH.
Qed.

(** Sorting the pairs of [enumerate(a)], taken in any order, leaves the
    indices in an order in which the elements of [a] are ascending. *)
Lemma sort_enumerate_ascending (a : list Q) (l : list (nat * Q)) :
  Permutation l (Py.enumerate a) ->
  StronglySorted (fun i j => nth i a 0 <= nth j a 0) (map fst (Np.sort l)).
Proof.
  intros Hp.
  assert (Hkeys : Forall (fun p => snd p = nth (fst p) a 0) (Np.sort l)).
  { eapply Permutation_Forall.
    - symmetry. etransitivity; [apply sort_perm|exact Hp].
    - rewrite Forall_forall. intros [i s] Hin. simpl.
      unfold Py.enumerate in Hin.
      apply enumerate_nth in Hin. destruct Hin as [_ Hn].
      rewrite Nat.sub_0_r in Hn. symmetry. now apply nth_error_nth. }
  revert Hkeys. generalize (sort_ascending l). generalize (Np.sort l).
  intros r Hs. induction Hs as [|p r Hs IH Hall]; intros Hkeys; simpl;
    [constructor|].
  inversion Hkeys as [|? ? Hk Hkeys']; subst.
  constructor; [now apply IH|].
  rewrite Forall_forall in *. intros j Hj.
  apply in_map_iff in Hj. destruct Hj as [q [<- Hq]].
  rewrite <- Hk, <- (Hkeys' q Hq). now apply Hall.
Qed.

Lemma stable_argsort_permutation (a : list Q) :
  Permutation (Np.stable_argsort a) (seq 0 (List.length a)).
Proof.
  unfold Np.stable_argsort. rewrite <- enumerate_fst.
  apply Permutation_map, sort_perm.
Qed.

Lemma stable_argsort_ascending (a : list Q) :
  StronglySorted (fun i j => nth i a 0 <= nth j a 0) (Np.stable_argsort a).
Proof.
  apply sort_enumerate_ascending. reflexivity.
Qed.

Lemma reversed_argsort_permutation (a : list Q) :
  Permutation (Np.reversed_argsort a) (seq 0 (List.length a)).
Proof.
  unfold Np.reversed_argsort. rewrite <- enumerate_fst.
  apply Permutation_map. rewrite sort_perm.
  symmetry. apply Permutation_rev.
Qed.

Lemma reversed_argsort_ascending (a : list Q) :
  StronglySorted (fun i j => nth i a 0 <= nth j a 0)
                 (Np.reversed_argsort a).
Proof.
  apply sort_enumerate_ascending. symmetry. apply Permutation_rev.
Qed.

(** [argsort] as [kind='stable'] computes it. *)
Definition stable_numpy : Numpy := {|
  argsort := Np.stable_argsort;
  argsort_permutation := stable_argsort_permutation;
  argsort_ascending := stable_argsort_ascending
|}.

(** An [argsort] that leaves equal elements in descending index order. *)
Definition reversed_numpy : Numpy := {|
  argsort := Np.reversed_argsort;
  argsort_permutation := reversed_argsort_permutation;
  argsort_ascending := reversed_argsort_ascending
|}.

(* ================================================================== *)
(** * Facts about the filter step *)
(* ================================================================== *)

Lemma enumerate_from_nth_error {B : Type} (l : list B) (k i : nat) :
  nth_error (combine (seq k (List.length l)) l) i =
  option_map (fun x => ((k + i)%nat, x)) (nth_error l i).
Proof.
  revert k i. induction l as [|x l IH]; intros k [|i]; simpl; try reflexivity.
  - now rewrite Nat.add_0_r.
  - rewrite IH. now replace (S k + i)%nat with (k + S i)%nat by lia.
Qed.

Lemma enumerate_in {B : Type} (l : list B) i x :
  In (i, x) (Py.enumerate l) <-> nth_error l i = Some x.
Proof.
  unfold Py.enumerate. split; intros H.
  - apply In_nth_error in H. destruct H as [j Hj].
    rewrite enumerate_from_nth_error in Hj.
    destruct (nth_error l j) eqn:E; simpl in Hj; [|discriminate].
    inversion Hj; subst. exact E.
  - apply nth_error_In with (n := i).
    rewrite enumerate_from_nth_error, H. reflexivity.
Qed.

Lemma apply_filters_in movies f i :
  In i (_apply_filters movies f) <->
  exists movie, nth_error movies i = Some movie /\ include f movie = true.
Proof.
  unfold _apply_filters. rewrite in_map_iff. split.
  - intros [[j m] [<- H]]. apply filter_In in H. destruct H as [Hin Hinc].
    apply enumerate_in in Hin. now exists m.
  - intros [m [Hn Hinc]]. exists (i, m). split; [reflexivity|].
    apply filter_In. split; [now apply enumerate_in|exact Hinc].
Qed.

Lemma apply_filters_lt movies f i :
  In i (_apply_filters movies f) -> (i < List.length movies)%nat.
Proof.
  intros H. apply apply_filters_in in H. destruct H as [m [Hn _]].
  apply nth_error_Some. congruence.
Qed.

Lemma apply_filters_nil movies f :
  _apply_filters movies f = [] <->
  (forall movie, In movie movies -> include f movie = false).
Proof.
  split.
  - intros Hnil m Hin. destruct (include f m) eqn:E; [|reflexivity].
    apply In_nth_error in Hin. destruct Hin as [i Hi].
    assert (H : In i (_apply_filters movies f)).
    { apply apply_filters_in. now exists m. }
    rewrite Hnil in H. contradiction.
  - intros Hall. destruct (_apply_filters movies f) as [|i l] eqn:E;
      [reflexivity|].
    assert (H : In i (_apply_filters movies f)) by (rewrite E; now left).
    apply apply_filters_in in H. destruct H as [m [Hn Hinc]].
    apply nth_error_In in Hn. rewrite (Hall m Hn) in Hinc. discriminate.
Qed.

Lemma existsb_eqb_in (i : nat) (l : list nat) :
  existsb (Nat.eqb i) l = true <-> In i l.
Proof.
  rewrite existsb_exists. split.
  - intros [j [Hin Heq]]. apply Nat.eqb_eq in Heq. now subst.
  - intros H. exists i. split; [exact H|apply Nat.eqb_refl].
Qed.

Lemma zero_unless_in_spec idxs a :
  Forall (fun i => (i < List.length a)%nat) idxs ->
  exists a',
    zero_unless_in idxs a = Some a' /\
    List.length a' = List.length a /\
    forall i, nth i a' 0 = if existsb (Nat.eqb i) idxs then nth i a 0 else 0.
Proof.
  intros Hall. unfold zero_unless_in.
  assert (Hb : forallb (fun i => (i <? List.length a)%nat) idxs = true).
  { apply forallb_forall. rewrite Forall_forall in Hall.
    intros i Hi. apply Nat.ltb_lt. now apply Hall. }
  rewrite Hb. eexists. split; [reflexivity|]. split.
  - unfold Py.enumerate.
    now rewrite length_map, length_combine, length_seq, Nat.min_id.
  - intros i. unfold Py.enumerate.
    destruct (nth_error a i) as [s|] eqn:E.
    + rewrite (nth_error_nth a i 0 E).
      apply nth_error_nth. rewrite nth_error_map, enumerate_from_nth_error, E.
      reflexivity.
    + rewrite (nth_error_nth_None a i 0 E).
      rewrite nth_error_nth_None.
      * now destruct (existsb (Nat.eqb i) idxs).
      * rewrite nth_error_map, enumerate_from_nth_error, E. reflexivity.
Qed.

(** The scores after the filter step, when the index is built: the
    array keeps its length, and a score is either kept or set to zero. *)
Lemma apply_mask_spec movies filters cs :
  List.length cs = List.length movies ->
  exists cs',
    apply_mask movies filters cs = Some cs' /\
    List.length cs' = List.length cs /\
    forall i, nth i cs' 0 = nth i cs 0 \/ nth i cs' 0 = 0.
Proof.
  intros Hlen. unfold apply_mask.
  destruct (filters_given filters) as [f|];
    [|exists cs; repeat split; now left].
  destruct (_apply_filters movies f) as [|i0 l] eqn:E;
    [exists cs; repeat split; now left|].
  destruct (zero_unless_in_spec (i0 :: l) cs) as [cs' [H1 [H2 H3]]].
  - rewrite <- E, Forall_forall. intros i Hi. rewrite Hlen.
    eapply apply_filters_lt, Hi.
  - exists cs'. repeat split; [exact H1|exact H2|].
    intros i. rewrite H3. destruct (existsb (Nat.eqb i) (i0 :: l)); auto.
Qed.

(* ================================================================== *)
(** * Facts about the selection loop *)
(* ================================================================== *)

Lemma recommendations_spec movies cs top :
  Forall (fun i => (i < List.length movies)%nat) top ->
  exists recs,
    recommendations movies cs top = Some recs /\
    Forall2 (result_at movies cs) (filter (positive_at cs) top) recs.
Proof.
  induction 1 as [|idx top Hidx Hall IH]; simpl.
  - exists []. split; [reflexivity|constructor].
  - destruct IH as [recs [Hr HF]]. unfold positive_at at 1.
    destruct (Qlt_bool 0 (nth idx cs 0)) eqn:Hpos.
    + destruct (nth_error movies idx) as [movie|] eqn:Hm.
      * rewrite Hr. simpl. eexists. split; [reflexivity|].
        constructor; [|exact HF]. now exists movie.
      * apply nth_error_None in Hm. lia.
    + exists recs. now split.
Qed.

Lemma top_indices_lt np cs n i :
  In i (top_indices np cs n) -> (i < List.length cs)%nat.
Proof.
  unfold top_indices. intros H. apply in_rev in H.
  destruct (slice_from_suffix (- n) (argsort np cs)) as [pre Hpre].
  apply (argsort_in np). rewrite Hpre. apply in_or_app. now right.
Qed.

Lemma top_indices_sorted np cs n :
  StronglySorted (fun i j => nth j cs 0 <= nth i cs 0) (top_indices np cs n).
Proof.
  unfold top_indices.
  apply (StronglySorted_rev (fun i j => nth i cs 0 <= nth j cs 0)).
  destruct (slice_from_suffix (- n) (argsort np cs)) as [pre Hpre].
  apply StronglySorted_app_r with (l1 := pre).
  rewrite <- Hpre. apply argsort_ascending.
Qed.

Lemma top_indices_length np cs n :
  (0 < n)%Z -> (Z.of_nat (List.length (top_indices np cs n)) <= n)%Z.
Proof.
  intros Hn. unfold top_indices. rewrite length_rev.
  now apply slice_from_length.
Qed.

(** The whole of [recommend_movies] after the similarity computation,
    when the index is built: no exception, and one dictionary for each
    selected index. *)
Lemma rank_scores_spec np movies cs n filters :
  List.length cs = List.length movies ->
  exists cs' recs,
    apply_mask movies filters cs = Some cs' /\
    rank_scores np movies cs n filters = Some recs /\
    Forall2 (result_at movies cs') (selected_indices np cs' n) recs.
Proof.
  intros Hlen. unfold rank_scores.
  destruct (apply_mask_spec movies filters cs Hlen) as [cs' [Hm [Hl _]]].
  rewrite Hm.
  destruct (recommendations_spec movies cs' (top_indices np cs' n))
    as [recs [Hr HF]].
  - rewrite Forall_forall. intros i Hi. apply top_indices_lt in Hi. lia.
  - exists cs', recs. now repeat split.
Qed.

Lemma similarities_length nltk sqrt self query :
  List.length (similarities nltk sqrt self query) =
  List.length (tfidf_matrix self).
Proof.
  unfold similarities, Sk.cosine_similarity. apply length_map.
Qed.

Lemma Forall2_in_r {A B : Type} (T : A -> B -> Prop) la lb b :
  Forall2 T la lb -> In b lb -> exists a, In a la /\ T a b.
Proof.
  induction 1 as [|a' b' la lb Hab HT IH]; simpl; [contradiction|].
  intros [->|Hin].
  - exists a'. split; [now left|exact Hab].
  - destruct (IH Hin) as [a [Ha HTa]]. exists a. split; [now right|exact HTa].
Qed.

Lemma include_empty f movie :
  Filters.nonempty f = false -> include f movie = true.
Proof.
  destruct f as [y g l c t o]. unfold Filters.nonempty, include. simpl.
  destruct y, g, l, c, t, o; intros H; try discriminate. reflexivity.
Qed.

(** With a filter set that some movie satisfies, the filter step keeps
    the scores of the matching indices and zeroes the others. *)
Lemma apply_mask_matching movies f cs :
  List.length cs = List.length movies ->
  Filters.nonempty f = true ->
  _apply_filters movies f <> [] ->
  exists cs',
    apply_mask movies (Some f) cs = Some cs' /\
    forall i, nth i cs' 0 =
              if existsb (Nat.eqb i) (_apply_filters movies f)
              then nth i cs 0 else 0.
Proof.
  intros Hlen Hne Hsome. unfold apply_mask, filters_given. rewrite Hne.
  destruct (zero_unless_in_spec (_apply_filters movies f) cs)
    as [cs' [H1 [_ H3]]].
  - rewrite Forall_forall. intros i Hi. rewrite Hlen.
    eapply apply_filters_lt, Hi.
  - exists cs'. split; [|exact H3].
    destruct (_apply_filters movies f); [congruence|exact H1].
Qed.

Lemma positive_at_nonzero cs i :
  positive_at cs i = true -> ~ nth i cs 0 == 0.
Proof.
  unfold positive_at, Qlt_bool. intros H Hz.
  apply negb_true_iff in H.
  assert (Hle : Qle_bool (nth i cs 0) 0 = true).
  { apply Qle_bool_iff. rewrite Hz. apply Qle_refl. }
  congruence.
Qed.

(* ================================================================== *)
(** * The filter step of [recommend_movies] (claims C1, C2, C3) *)
(* ================================================================== *)

(** C1 (amended).  For every query, every [n] and every filter set that
    at least one catalog entry satisfies, [recommend_movies] returns
    normally and every returned dictionary was built from a catalog
    entry that satisfies the filter set: the scores of the other entries
    are set to zero and zero scores are never returned. *)
Theorem filtered_results_match nltk sqrt np self query n f :
  index_built self ->
  (exists movie, In movie (movies self) /\ include f movie = true) ->
  exists recs,
    recommend_movies nltk sqrt np self query n (Some f) = Some recs /\
    Forall (fun r =>
              exists idx movie,
                nth_error (movies self) idx = Some movie /\
                r = recommendation movie (Recommendation.similarity_score r) /\
                include f movie = true)
           recs.
Proof.
  intros Hwf [m0 [Hin0 Hinc0]]. unfold recommend_movies.
  set (cs := similarities nltk sqrt self query).
  assert (Hlen : List.length cs = List.length (movies self)).
  { unfold cs. rewrite similarities_length. exact Hwf. }
  destruct (rank_scores_spec np (movies self) cs n (Some f) Hlen)
    as [cs' [recs [Hm [Hr HF]]]].
  exists recs. split; [exact Hr|].
  rewrite Forall_forall. intros r Hrin.
  destruct (Forall2_in_r _ _ _ _ HF Hrin) as [idx [Hsel [movie [Hnth Hreq]]]].
  exists idx, movie. split; [exact Hnth|]. split; [now subst r|].
  destruct (Filters.nonempty f) eqn:Hne; [|now apply include_empty].
  assert (Hsome : _apply_filters (movies self) f <> []).
  { intros Hnil. rewrite apply_filters_nil in Hnil.
    rewrite (Hnil m0 Hin0) in Hinc0. discriminate. }
  destruct (apply_mask_matching (movies self) f cs Hlen Hne Hsome)
    as [cs'' [Hm' Hval]].
  rewrite Hm in Hm'. inversion Hm'; subst cs''.
  apply filter_In in Hsel. destruct Hsel as [_ Hpos].
  apply positive_at_nonzero in Hpos. rewrite Hval in Hpos.
  destruct (existsb (Nat.eqb idx) (_apply_filters (movies self) f)) eqn:Hex.
  - apply existsb_eqb_in, apply_filters_in in Hex.
    destruct Hex as [movie' [Hnth' Hinc]]. congruence.
  - exfalso. apply Hpos. reflexivity.
Qed.

Lemma filtered_results_match_witness :
  exists recs,
    recommend_movies Sample.nltk Sample.sqrt stable_numpy Sample.recommender
                     "Hindi movies!" 10
                     (Some (Sample.only_language (LStr "hi"))) = Some recs /\
    Forall (fun r =>
              exists idx movie,
                nth_error (movies Sample.recommender) idx = Some movie /\
                r = recommendation movie (Recommendation.similarity_score r) /\
                include (Sample.only_language (LStr "hi")) movie = true)
           recs.
Proof.
  apply (filtered_results_match Sample.nltk Sample.sqrt stable_numpy
           Sample.recommender
           "Hindi movies!" 10 (Sample.only_language (LStr "hi"))).
  - reflexivity.
  - exists Sample.dilwale. split; [simpl; auto|reflexivity].
Defined.

(** C1 as stated fails: the filter set asks for Tamil, no entry of the
    catalog is Tamil, and the first dictionary returned is the one of a
    Hindi film. *)
Lemma unsatisfied_filter_returns_nonmatching :
  let f := Sample.only_language (LStr "ta") in
  Filters.nonempty f = true /\
  exists r recs,
    recommend_movies Sample.nltk Sample.sqrt stable_numpy Sample.recommender
                     "Hindi movies!" 10 (Some f) = Some (r :: recs) /\
    Recommendation.id r = Movie.id Sample.dilwale /\
    forall movie, In movie (movies Sample.recommender) ->
                  include f movie = false.
Proof.
  split; [reflexivity|].
  eexists. eexists. split; [vm_compute; reflexivity|].
  split; [reflexivity|].
  intros movie [<-|[<-|[<-|[]]]]; reflexivity.
Qed.

(** When no index matches, the masking step is skipped. *)
Lemma rank_scores_no_match np movies cs n f :
  _apply_filters movies f = [] ->
  rank_scores np movies cs n (Some f) = rank_scores np movies cs n None.
Proof.
  intros Hnil. unfold rank_scores, apply_mask, filters_given.
  destruct (Filters.nonempty f); [|reflexivity].
  now rewrite Hnil.
Qed.

(** C2 (amended).  If no catalog entry satisfies the filter set, the
    filter set is ignored: [recommend_movies] returns what the
    unfiltered call returns, so the result is empty only when the
    unfiltered result is. *)
Theorem no_match_returns_unfiltered nltk sqrt np self query n f :
  (forall movie, In movie (movies self) -> include f movie = false) ->
  recommend_movies nltk sqrt np self query n (Some f) =
  recommend_movies nltk sqrt np self query n None.
Proof.
  intros Hall. unfold recommend_movies.
  apply rank_scores_no_match. now apply apply_filters_nil.
Qed.

Lemma no_match_returns_unfiltered_witness :
  recommend_movies Sample.nltk Sample.sqrt stable_numpy
      Sample.recommender "hindi" 2
    (Some (Filters.mk (Some (YInt 1999)) None None None None 0)) =
  recommend_movies Sample.nltk Sample.sqrt stable_numpy
      Sample.recommender "hindi" 2 None.
Proof.
  apply (no_match_returns_unfiltered Sample.nltk Sample.sqrt stable_numpy
           Sample.recommender "hindi" 2
           (Filters.mk (Some (YInt 1999)) None None None None 0)).
  intros movie [<-|[<-|[<-|[]]]]; reflexivity.
Defined.

(** C2 as stated fails: no entry of the catalog is from 1999, and the
    call with the year filter returns two dictionaries. *)
Lemma no_match_result_not_empty :
  let f := Filters.mk (Some (YInt 1999)) None None None None 0 in
  (forall movie, In movie (movies Sample.recommender) ->
                 include f movie = false) /\
  exists recs,
    recommend_movies Sample.nltk Sample.sqrt stable_numpy Sample.recommender
                     "hindi" 2 (Some f) = Some recs /\
    List.length recs = 2%nat.
Proof.
  split.
  - intros movie [<-|[<-|[<-|[]]]]; reflexivity.
  - eexists. split; [vm_compute; reflexivity|reflexivity].
Qed.

(** C3.  When [_apply_filters] finds no matching index, the call with
    the filter set returns exactly what the call without filters
    returns. *)
Theorem empty_filtered_indices_ignored nltk sqrt np self query n f :
  _apply_filters (movies self) f = [] ->
  recommend_movies nltk sqrt np self query n (Some f) =
  recommend_movies nltk sqrt np self query n None.
Proof.
  intros Hnil. unfold recommend_movies. now apply rank_scores_no_match.
Qed.

Lemma empty_filtered_indices_ignored_witness :
  recommend_movies Sample.nltk Sample.sqrt stable_numpy Sample.recommender
    "Hindi web series" 5 (Some (Sample.only_language (LStr "kn"))) =
  recommend_movies Sample.nltk Sample.sqrt stable_numpy Sample.recommender
    "Hindi web series" 5 None.
Proof.
  apply (empty_filtered_indices_ignored Sample.nltk Sample.sqrt stable_numpy
           Sample.recommender "Hindi web series" 5
           (Sample.only_language (LStr "kn"))).
  reflexivity.
Defined.

(* ================================================================== *)
(** * The selection of the top [n] (claims C5, C6, C7) *)
(* ================================================================== *)

(** C5 (the code departs from the claim).  With [n = 0] the slice
    [argsort()[-0:]] is the whole array, and with [n = -2] it is
    [argsort()[2:]]: on the three-entry catalog the call returns two
    dictionaries for [n = 0] and one for [n = -2] instead of none. *)
Example nonpositive_n_returns_results :
  top_indices stable_numpy [0; 1; 1 # 3] 0 = [1; 2; 0]%nat /\
  option_map (map Recommendation.id)
    (recommend_movies Sample.nltk Sample.sqrt stable_numpy Sample.recommender
                      "Hindi movies!" 0 None) = Some [2; 3]%Z /\
  option_map (map Recommendation.id)
    (recommend_movies Sample.nltk Sample.sqrt stable_numpy Sample.recommender
                      "Hindi movies!" (-2) None) = Some [2]%Z.
Proof.
  repeat split; vm_compute; reflexivity.
Qed.

Lemma Forall2_length_eq {A B : Type} (T : A -> B -> Prop) la lb :
  Forall2 T la lb -> List.length la = List.length lb.
Proof.
  induction 1; simpl; congruence.
Qed.

(** C7 (amended).  For every query, every filter set and every [n > 0],
    [recommend_movies] returns at most [n] dictionaries; for every [n]
    the similarity scores of the returned sequence are non-increasing
    from first to last. *)
Theorem top_n_contract nltk sqrt np self query n filters :
  index_built self ->
  exists recs,
    recommend_movies nltk sqrt np self query n filters = Some recs /\
    ((0 < n)%Z -> (Z.of_nat (List.length recs) <= n)%Z) /\
    StronglySorted
      (fun r1 r2 =>
         Recommendation.similarity_score r2 <=
         Recommendation.similarity_score r1)
      recs.
Proof.
  intros Hwf. unfold recommend_movies.
  set (cs := similarities nltk sqrt self query).
  assert (Hlen : List.length cs = List.length (movies self)).
  { unfold cs. rewrite similarities_length. exact Hwf. }
  destruct (rank_scores_spec np (movies self) cs n filters Hlen)
    as [cs' [recs [_ [Hr HF]]]].
  exists recs. split; [exact Hr|]. split.
  - intros Hn. rewrite <- (Forall2_length_eq _ _ _ HF).
    pose proof (top_indices_length np cs' n Hn) as Htop.
    pose proof (filter_length_le (positive_at cs') (top_indices np cs' n)) as Hf.
    unfold selected_indices. lia.
  - eapply StronglySorted_Forall2; [|exact HF|].
    + intros i j r1 r2 [m1 [_ ->]] [m2 [_ ->]] Hij. simpl.
      exact Hij.
    + apply StronglySorted_filter, top_indices_sorted.
Qed.

Lemma top_n_contract_witness :
  exists recs,
    recommend_movies Sample.nltk Sample.sqrt stable_numpy Sample.recommender
                     "Hindi movies!" 1 None = Some recs /\
    ((0 < 1)%Z -> (Z.of_nat (List.length recs) <= 1)%Z) /\
    StronglySorted
      (fun r1 r2 =>
         Recommendation.similarity_score r2 <=
         Recommendation.similarity_score r1)
      recs.
Proof.
  apply (top_n_contract Sample.nltk Sample.sqrt stable_numpy Sample.recommender
           "Hindi movies!" 1 None).
  reflexivity.
Defined.

(** C7 as stated fails: for [n = 0] the unfiltered call on the catalog
    of two entries returns two dictionaries. *)
Lemma zero_n_exceeds_bound :
  exists recs,
    recommend_movies Sample.nltk Sample.sqrt stable_numpy Sample.twins
                     "hindi" 0 (Some Filters.empty) = Some recs /\
    ~ (Z.of_nat (List.length recs) <= 0)%Z.
Proof.
  eexists. split; [vm_compute; reflexivity|]. simpl. lia.
Qed.

(** A suffix of a list without repetition that holds [i] holds all that
    follows [i]. *)
Lemma suffix_from_member {A : Type} (pre suf a t : list A) (i : A) :
  pre ++ suf = a ++ i :: t ->
  NoDup (a ++ i :: t) ->
  In i suf ->
  exists a', suf = a' ++ i :: t.
Proof.
  revert a. induction pre as [|x pre IH]; intros a Heq Hnd Hin.
  - exists a. exact Heq.
  - destruct a as [|y a]; simpl in Heq; inversion Heq; subst.
    + exfalso. inversion Hnd as [|? ? Hnot _]; subst.
      apply Hnot. apply in_or_app. now right.
    + apply (IH a); [assumption| |assumption].
      now inversion Hnd.
Qed.

(** C6 (amended).  The code has no tie-breaking of its own: the returned
    sequence follows the order of [argsort], reversed.  For every query,
    every filter set and every [n]: if [argsort] places the index [i]
    before the index [j] in the scores after the filter step, and [i] is
    selected, then [j] is selected too and its dictionary comes before
    the one of [i].  Of two indices with equal scores the one that
    [argsort] places later wins, whichever of the two is the lower. *)
Theorem ties_follow_argsort nltk sqrt np self query n filters i j :
  index_built self ->
  exists cs recs,
    apply_mask (movies self) filters (similarities nltk sqrt self query)
      = Some cs /\
    recommend_movies nltk sqrt np self query n filters = Some recs /\
    Forall2 (result_at (movies self) cs) (selected_indices np cs n) recs /\
    ((exists a b c, argsort np cs = a ++ i :: b ++ j :: c) ->
     In i (selected_indices np cs n) ->
     exists l1 l2 l3, selected_indices np cs n = l1 ++ j :: l2 ++ i :: l3).
Proof.
  intros Hwf. unfold recommend_movies.
  set (cs0 := similarities nltk sqrt self query).
  assert (Hlen : List.length cs0 = List.length (movies self)).
  { unfold cs0. rewrite similarities_length. exact Hwf. }
  destruct (rank_scores_spec np (movies self) cs0 n filters Hlen)
    as [cs [recs [Hm [Hr HF]]]].
  exists cs, recs. repeat split; try assumption.
  intros [a [b [c Hsplit]]] Hsel. unfold selected_indices in *.
  apply filter_In in Hsel. destruct Hsel as [Htop Hpos].
  unfold top_indices in *. apply in_rev in Htop.
  destruct (slice_from_suffix (- n) (argsort np cs)) as [pre Hpre].
  set (suf := Py.slice_from (- n) (argsort np cs)) in *.
  pose proof (argsort_NoDup np cs) as Hnd.
  pose proof (argsort_ascending np cs) as Hs.
  rewrite Hsplit in Hpre, Hnd, Hs.
  destruct (suffix_from_member pre suf a (b ++ j :: c) i
              (eq_sym Hpre) Hnd Htop) as [a' Hsuf].
  assert (Hle : nth i cs 0 <= nth j cs 0).
  { apply StronglySorted_app_r in Hs.
    apply StronglySorted_inv in Hs. destruct Hs as [_ Hall].
    rewrite Forall_forall in Hall. apply Hall.
    apply in_or_app. right. now left. }
  assert (Hposj : positive_at cs j = true).
  { unfold positive_at, Qlt_bool in *.
    apply negb_true_iff in Hpos. apply negb_true_iff.
    destruct (Qle_bool (nth j cs 0) 0) eqn:E; [|reflexivity].
    apply Qle_bool_iff in E.
    assert (H0 : Qle_bool (nth i cs 0) 0 = true).
    { apply Qle_bool_iff. eapply Qle_trans; eassumption. }
    congruence. }
  rewrite Hsuf.
  exists (filter (positive_at cs) (rev c)),
         (filter (positive_at cs) (rev b)),
         (filter (positive_at cs) (rev a')).
  rewrite !rev_app_distr. simpl. rewrite !rev_app_distr. simpl.
  rewrite <- !app_assoc. simpl.
  rewrite !filter_app. simpl. rewrite Hposj.
  rewrite !filter_app. simpl. rewrite Hpos. reflexivity.
Qed.

Lemma ties_follow_argsort_witness :
  exists cs recs,
    apply_mask (movies Sample.twins) None
      (similarities Sample.nltk Sample.sqrt Sample.twins "hindi") = Some cs /\
    recommend_movies Sample.nltk Sample.sqrt stable_numpy Sample.twins
                     "hindi" 2 None = Some recs /\
    Forall2 (result_at (movies Sample.twins) cs)
            (selected_indices stable_numpy cs 2) recs /\
    ((exists a b c, argsort stable_numpy cs = a ++ 0%nat :: b ++ 1%nat :: c) ->
     In 0%nat (selected_indices stable_numpy cs 2) ->
     exists l1 l2 l3,
       selected_indices stable_numpy cs 2 = l1 ++ 1%nat :: l2 ++ 0%nat :: l3).
Proof.
  apply (ties_follow_argsort Sample.nltk Sample.sqrt stable_numpy
           Sample.twins "hindi" 2 None 0 1).
  reflexivity.
Defined.

(** C6 as stated fails.  The two entries of the catalog have the same
    score for the query.  With an [argsort] that keeps equal elements in
    index order, and [n = 1], the entry at index 1 is returned and the
    one at index 0 is left out; with [n = 2] the entry at index 1 comes
    first. *)
Lemma tie_prefers_higher_index :
  let cs := similarities Sample.nltk Sample.sqrt Sample.twins "hindi" in
  nth 0 cs 0 == nth 1 cs 0 /\
  argsort stable_numpy cs = [0; 1]%nat /\
  selected_indices stable_numpy cs 1 = [1%nat] /\
  option_map (map Recommendation.id)
    (recommend_movies Sample.nltk Sample.sqrt stable_numpy Sample.twins
                      "hindi" 1 None)
    = Some [Movie.id Sample.sacred_games] /\
  option_map (map Recommendation.id)
    (recommend_movies Sample.nltk Sample.sqrt stable_numpy Sample.twins
                      "hindi" 2 None)
    = Some [Movie.id Sample.sacred_games; Movie.id Sample.dilwale].
Proof.
  repeat split; vm_compute; reflexivity.
Qed.

(** The same call with an [argsort] that leaves equal elements in
    descending index order returns the entry at index 0: the order of
    tied entries is the sort's, not the catalog's. *)
Example tie_order_depends_on_argsort :
  Np.reversed_argsort [1; 1; 3 # 5; 0] = [3; 2; 1; 0]%nat /\
  Np.stable_argsort [1; 1; 3 # 5; 0] = [3; 2; 0; 1]%nat /\
  option_map (map Recommendation.id)
    (recommend_movies Sample.nltk Sample.sqrt reversed_numpy Sample.twins
                      "hindi" 1 None)
    = Some [Movie.id Sample.dilwale] /\
  option_map (map Recommendation.id)
    (recommend_movies Sample.nltk Sample.sqrt stable_numpy Sample.twins
                      "hindi" 1 None)
    = Some [Movie.id Sample.sacred_games].
Proof.
  repeat split; vm_compute; reflexivity.
Qed.

(* ================================================================== *)
(** * Queries outside the vocabulary (claim C9) *)
(* ================================================================== *)

Lemma tfidf_row_zero v tokens :
  (forall t, In t tokens -> ~ In t (map fst (columns v))) ->
  all_zero (Sk.tfidf_row v tokens).
Proof.
  intros Hout. unfold all_zero, Sk.tfidf_row.
  rewrite Forall_forall. intros c Hc.
  apply in_map_iff in Hc. destruct Hc as [[t w] [<- Hin]]. simpl.
  assert (Hcount : count_occ string_dec tokens t = 0%nat).
  { apply count_occ_not_In. intros Ht. apply (Hout t Ht).
    apply in_map_iff. now exists (t, w). }
  rewrite Hcount. simpl. apply Qmult_0_l.
Qed.

Lemma normalize_zero sqrt x : all_zero x -> all_zero (Sk.normalize sqrt x).
Proof.
  unfold all_zero, Sk.normalize. intros Hz.
  rewrite Forall_forall in *. intros c Hc.
  apply in_map_iff in Hc. destruct Hc as [c0 [<- Hin]].
  unfold Qdiv. rewrite (Hz c0 Hin). apply Qmult_0_l.
Qed.

Lemma dot_zero x y : all_zero x -> Sk.dot x y == 0.
Proof.
  unfold Sk.dot. intros Hz. revert y.
  induction Hz as [|c x Hc Hz IH]; intros [|d y]; simpl; try reflexivity.
  rewrite IH, Hc. ring.
Qed.

Lemma cosine_similarity_zero sqrt x Y :
  all_zero x -> all_zero (Sk.cosine_similarity sqrt x Y).
Proof.
  intros Hz. unfold all_zero, Sk.cosine_similarity.
  rewrite Forall_forall. intros s Hs.
  apply in_map_iff in Hs. destruct Hs as [y [<- _]].
  apply dot_zero, normalize_zero, Hz.
Qed.

Lemma all_zero_nth x i : all_zero x -> nth i x 0 == 0.
Proof.
  intros Hz. revert i.
  induction Hz as [|c x Hc Hz IH]; intros [|i]; simpl;
    try reflexivity; auto.
Qed.

Lemma selected_indices_zero np cs n :
  (forall i, nth i cs 0 == 0) -> selected_indices np cs n = [].
Proof.
  intros Hz. unfold selected_indices.
  induction (top_indices np cs n) as [|i l IH]; simpl; [reflexivity|].
  destruct (positive_at cs i) eqn:Hpos; [|exact IH].
  apply positive_at_nonzero in Hpos. now destruct (Hpos (Hz i)).
Qed.

(** C9.  For every [n] and every filter set, a query whose normalization
    has no term of the vocabulary is vectorized to the zero vector, has
    similarity zero with every catalog document, and gets an empty
    result. *)
Theorem unknown_terms_give_empty_result nltk sqrt np self query n filters :
  index_built self ->
  (forall t, In t (Sk.analyze (_preprocess_text nltk query)) ->
             ~ In t (map fst (columns (vectorizer self)))) ->
  all_zero (Sk.transform sqrt (vectorizer self) (_preprocess_text nltk query))
  /\ all_zero (similarities nltk sqrt self query)
  /\ recommend_movies nltk sqrt np self query n filters = Some [].
Proof.
  intros Hwf Hout.
  assert (Hvec : all_zero (Sk.transform sqrt (vectorizer self)
                                        (_preprocess_text nltk query))).
  { unfold Sk.transform. apply normalize_zero, tfidf_row_zero, Hout. }
  assert (Hsim : all_zero (similarities nltk sqrt self query)).
  { unfold similarities. now apply cosine_similarity_zero. }
  split; [exact Hvec|]. split; [exact Hsim|].
  unfold recommend_movies.
  set (cs := similarities nltk sqrt self query) in *.
  assert (Hlen : List.length cs = List.length (movies self)).
  { unfold cs. rewrite similarities_length. exact Hwf. }
  destruct (apply_mask_spec (movies self) filters cs Hlen)
    as [cs1 [Hm1 [_ Hval]]].
  destruct (rank_scores_spec np (movies self) cs n filters Hlen)
    as [cs' [recs [Hm [Hr HF]]]].
  assert (cs1 = cs') by congruence. subst cs1.
  rewrite Hr. f_equal.
  rewrite selected_indices_zero in HF; [now inversion HF|].
  intros i. destruct (Hval i) as [H|H]; rewrite H;
    [now apply all_zero_nth|reflexivity].
Qed.

Lemma unknown_terms_give_empty_result_witness :
  all_zero (Sk.transform Sample.sqrt (vectorizer Sample.recommender)
              (_preprocess_text Sample.nltk "The films of Tamil cinema"))
  /\ all_zero (similarities Sample.nltk Sample.sqrt Sample.recommender
                 "The films of Tamil cinema")
  /\ recommend_movies Sample.nltk Sample.sqrt stable_numpy Sample.recommender
       "The films of Tamil cinema" 10
       (Some (Sample.only_language (LStr "hi"))) = Some [].
Proof.
  apply (unknown_terms_give_empty_result Sample.nltk Sample.sqrt stable_numpy
           Sample.recommender "The films of Tamil cinema" 10
           (Some (Sample.only_language (LStr "hi")))).
  - reflexivity.
  - vm_compute. intros t [<-|[<-|[<-|[]]]];
      intros [H|[H|[H|[H|[]]]]]; discriminate H.
Defined.

(* ================================================================== *)
(** * The filter evaluator (claims C4, C10) *)
(* ================================================================== *)

Ltac case_atoms :=
  repeat match goal with
         | |- context [if ?x then _ else _] =>
             lazymatch x with
             | context [if _ then _ else _] => fail
             | _ => destruct x
             end
         end.

(** The flag [include] is the conjunction of the tests of the keys that
    are present. *)
Lemma include_conj f movie :
  include f movie =
  year_ok f movie && genre_ok f movie && language_ok f movie
  && content_type_ok f movie && period_ok f movie.
Proof.
  unfold include, year_ok, genre_ok, language_ok, content_type_ok, period_ok.
  destruct (Filters.year f), (Filters.genre f), (Filters.language f),
    (Filters.content_type f), (Filters.time_period f) as [[lo hi]|];
    cbv beta iota zeta; unfold negb, andb; case_atoms; reflexivity.
Qed.

Lemma include_language_list f movie codes :
  Filters.language f = Some (LList codes) -> include f movie = false.
Proof.
  intros H. rewrite include_conj.
  assert (Hl : language_ok f movie = false).
  { unfold language_ok. rewrite H. now destruct (Movie.language movie). }
  rewrite Hl. now rewrite !andb_false_r.
Qed.

(** C4 (the code departs from the claim).  The query "south indian
    movies" is interpreted as the language filter carrying the list
    ta, te, ml, kn; the Tamil entry, whose language is in that list,
    does not pass [_apply_filters], which compares the entry's language
    with the whole list by [!=]. *)
Example language_list_excludes_member :
  extract_language "south indian movies" = Some (LList ["ta"; "te"; "ml"; "kn"])
  /\ Movie.language Sample.kaala = Some "ta"
  /\ include (Sample.only_language (LList ["ta"; "te"; "ml"; "kn"]))
             Sample.kaala = false
  /\ include (Sample.only_language (LStr "ta")) Sample.kaala = true
  /\ _apply_filters [Sample.kaala; Sample.dilwale]
       (Sample.only_language (LList ["ta"; "te"; "ml"; "kn"])) = [].
Proof.
  repeat split; vm_compute; reflexivity.
Qed.

Lemma period_year_unparsable movie :
  year_unparsable movie -> period_year movie = 0%Z.
Proof.
  unfold year_unparsable, period_date, period_year.
  destruct (Py.truthy (Movie.release_date movie)).
  - destruct (Movie.release_date movie); [|reflexivity].
    now intros ->.
  - destruct (Py.truthy (Movie.first_air_date movie)); [|reflexivity].
    destruct (Movie.first_air_date movie); [|reflexivity].
    now intros ->.
Qed.

(** C10 (amended).  An entry whose date is missing or whose first four
    characters do not parse is given the year 0 by the time-period
    filter: it never satisfies a range filter that does not contain 0
    (a range with [start > 0] or [end < 0]). *)
Theorem unparsable_year_fails_period f movie start_year end_year :
  year_unparsable movie ->
  Filters.time_period f = Some (start_year, end_year) ->
  (0 < start_year \/ end_year < 0)%Z ->
  include f movie = false.
Proof.
  intros Hyear Hperiod Hrange. rewrite include_conj.
  assert (Hp : period_ok f movie = false).
  { unfold period_ok.
    rewrite Hperiod, (period_year_unparsable movie Hyear).
    apply andb_false_iff.
    destruct Hrange; [left; apply Z.leb_gt|right; apply Z.leb_gt]; lia. }
  rewrite Hp. apply andb_false_r.
Qed.

Lemma unparsable_year_fails_period_witness :
  include (Sample.only_period 1990 1999) Sample.announced = false /\
  include (Sample.only_period 1990 1999) Sample.undated = false.
Proof.
  split.
  - apply (unparsable_year_fails_period (Sample.only_period 1990 1999)
             Sample.announced 1990 1999).
    + reflexivity.
    + reflexivity.
    + left. lia.
  - apply (unparsable_year_fails_period (Sample.only_period 1990 1999)
             Sample.undated 1990 1999).
    + exact I.
    + reflexivity.
    + left. lia.
Defined.

(** C10 as stated fails: one entry has an empty release date, the other
    a release date that starts with letters, and both satisfy the
    time-period filter from 0 to 2020. *)
Lemma unparsable_year_matches_period_with_zero :
  year_unparsable Sample.undated /\
  include (Sample.only_period 0 2020) Sample.undated = true /\
  year_unparsable Sample.announced /\
  include (Sample.only_period 0 2020) Sample.announced = true.
Proof.
  repeat split; reflexivity.
Qed.

(* ================================================================== *)
(** * The document normaliser (claim C8) *)
(* ================================================================== *)

Lemma settled_char c :
  is_settled c = true ->
  Py.lower_char c = c /\
  (Py.is_word c || Py.is_space c) = true /\
  Py.is_digit c = false.
Proof.
  destruct c as [[] [] [] [] [] [] [] []]; vm_compute; intros H;
    try discriminate H; repeat split.
Qed.

Lemma clean_settled (s : list ascii) :
  forallb is_settled s = true ->
  sub_digits (sub_special (map Py.lower_char s)) false = s.
Proof.
  induction s as [|c s IH]; simpl; [reflexivity|].
  intros H. apply andb_true_iff in H. destruct H as [Hc Hs].
  destruct (settled_char c Hc) as [Hl [Hw Hd]].
  rewrite Hl, Hw, Hd. f_equal. now apply IH.
Qed.

Lemma list_ascii_of_string_app (a b : string) :
  list_ascii_of_string (a ++ b) =
  (list_ascii_of_string a ++ list_ascii_of_string b)%list.
Proof.
  induction a as [|c a IH]; simpl; [reflexivity|]. now rewrite IH.
Qed.

Lemma plain_is_settled (l : list ascii) :
  forallb is_plain l = true -> forallb is_settled l = true.
Proof.
  induction l as [|c l IH]; simpl; [reflexivity|].
  intros H. apply andb_true_iff in H. destruct H as [Hc Hl].
  unfold is_settled at 1. rewrite Hc. simpl. now apply IH.
Qed.

Lemma join_settled (tokens : list string) :
  Forall plain_word tokens ->
  forallb is_settled (list_ascii_of_string (Py.join " " tokens)) = true.
Proof.
  induction 1 as [|t tokens Ht Hts IH]; [reflexivity|].
  destruct tokens as [|t' tokens].
  - simpl. now apply plain_is_settled.
  - change (Py.join " " (t :: t' :: tokens))
      with (t ++ " " ++ Py.join " " (t' :: tokens))%string.
    rewrite !list_ascii_of_string_app, !forallb_app.
    rewrite (plain_is_settled _ Ht), IH. reflexivity.
Qed.

(** The rewriting steps do not change a text that is already a
    space-separated sequence of plain words. *)
Lemma clean_join (tokens : list string) :
  Forall plain_word tokens ->
  clean (Py.join " " tokens) = Py.join " " tokens.
Proof.
  intros H. unfold clean, Py.lower.
  rewrite list_ascii_of_string_of_list_ascii.
  rewrite clean_settled by now apply join_settled.
  apply string_of_list_ascii_of_string.
Qed.

Lemma filter_all {A : Type} (f : A -> bool) (l : list A) :
  Forall (fun x => f x = true) l -> filter f l = l.
Proof.
  induction 1 as [|x l Hx Hl IH]; simpl; [reflexivity|].
  now rewrite Hx, IH.
Qed.

Lemma map_fixed {A : Type} (f : A -> A) (l : list A) :
  Forall (fun x => f x = x) l -> map f l = l.
Proof.
  induction 1 as [|x l Hx Hl IH]; simpl; [reflexivity|].
  now rewrite Hx, IH.
Qed.

(** C8 (amended).  [_preprocess_text] applied to its own output returns
    that output unchanged whenever the tokens of the output are stable:
    they are made of lower-case letters and underscores, the tokenizer
    splits their space-separated text back into them, none of them is a
    stop word and each is its own lemma. *)
Theorem preprocess_text_idempotent_on_stable nltk text :
  Forall plain_word (preprocess_tokens nltk text) ->
  word_tokenize nltk (Py.join " " (preprocess_tokens nltk text))
    = preprocess_tokens nltk text ->
  Forall (fun t => in_stop_words nltk t = false /\ lemmatize nltk t = t)
         (preprocess_tokens nltk text) ->
  _preprocess_text nltk (_preprocess_text nltk text)
    = _preprocess_text nltk text.
Proof.
  intros Hplain Htok Hstable.
  destruct text as [|c text]; [reflexivity|].
  change (_preprocess_text nltk (String c text))
    with (Py.join " " (preprocess_tokens nltk (String c text))).
  set (tokens := preprocess_tokens nltk (String c text)) in *.
  unfold _preprocess_text.
  destruct (Py.join " " tokens) eqn:Hjoin; [reflexivity|].
  rewrite <- Hjoin in Htok |- *. f_equal.
  unfold preprocess_tokens at 1. fold tokens.
  rewrite (clean_join tokens Hplain), Htok.
  rewrite filter_all.
  - apply map_fixed. eapply Forall_impl; [|exact Hstable]. now intros t [_ H].
  - eapply Forall_impl; [|exact Hstable]. intros t [H _]. now rewrite H.
Qed.

Lemma preprocess_text_idempotent_on_stable_witness :
  _preprocess_text Sample.nltk
    (_preprocess_text Sample.nltk "The 12 Hindi movies, of 2019!")
  = _preprocess_text Sample.nltk "The 12 Hindi movies, of 2019!".
Proof.
  apply (preprocess_text_idempotent_on_stable Sample.nltk
           "The 12 Hindi movies, of 2019!").
  - vm_compute. repeat constructor.
  - vm_compute. reflexivity.
  - vm_compute. repeat constructor.
Defined.

(** C8 as stated fails.  The token "cans" is not a stop word and its
    lemma is "can"; "can" is a stop word, so the second application
    removes it. *)
Lemma preprocess_text_not_idempotent :
  _preprocess_text Sample.nltk "cans" = "can" /\
  _preprocess_text Sample.nltk (_preprocess_text Sample.nltk "cans") = "" /\
  _preprocess_text Sample.nltk (_preprocess_text Sample.nltk "cans")
    <> _preprocess_text Sample.nltk "cans".
Proof.
  repeat split; try (vm_compute; reflexivity).
  vm_compute. discriminate.
Qed.

(* ================================================================== *)
(** * Further properties of [recommend_movies] *)
(* ================================================================== *)

Lemma recommendations_app movies cs l1 l2 :
  recommendations movies cs (l1 ++ l2) =
  match recommendations movies cs l1, recommendations movies cs l2 with
  | Some r1, Some r2 => Some (r1 ++ r2)
  | _, _ => None
  end.
Proof.
  induction l1 as [|idx l1 IH]; simpl.
  - now destruct (recommendations movies cs l2).
  - destruct (Qlt_bool 0 (nth idx cs 0)); [|exact IH].
    destruct (nth_error movies idx) as [movie|]; [|reflexivity].
    rewrite IH.
    destruct (recommendations movies cs l1), (recommendations movies cs l2);
      reflexivity.
Qed.

Lemma positive_at_lt cs i : positive_at cs i = true <-> 0 < nth i cs 0.
Proof.
  unfold positive_at, Qlt_bool. rewrite negb_true_iff. split.
  - intros H. apply Qnot_le_lt. intros Hle.
    apply Qle_bool_iff in Hle. congruence.
  - intros H. destruct (Qle_bool (nth i cs 0) 0) eqn:E; [|reflexivity].
    apply Qle_bool_iff in E. exfalso. apply (Qlt_irrefl 0).
    eapply Qlt_le_trans; eassumption.
Qed.

(** X1.  Every returned score is strictly positive, and it is the cosine
    similarity of the entry it is reported for: the filter step changes
    no score that is returned. *)
Theorem returned_scores_positive nltk sqrt np self query n filters :
  index_built self ->
  exists recs,
    recommend_movies nltk sqrt np self query n filters = Some recs /\
    Forall (fun r =>
              0 < Recommendation.similarity_score r /\
              exists idx movie,
                nth_error (movies self) idx = Some movie /\
                r = recommendation movie
                      (nth idx (similarities nltk sqrt self query) 0))
           recs.
Proof.
  intros Hwf. unfold recommend_movies.
  set (cs := similarities nltk sqrt self query).
  assert (Hlen : List.length cs = List.length (movies self)).
  { unfold cs. rewrite similarities_length. exact Hwf. }
  destruct (apply_mask_spec (movies self) filters cs Hlen)
    as [cs1 [Hm1 [_ Hval]]].
  destruct (rank_scores_spec np (movies self) cs n filters Hlen)
    as [cs' [recs [Hm [Hr HF]]]].
  assert (cs1 = cs') by congruence. subst cs1.
  exists recs. split; [exact Hr|].
  rewrite Forall_forall. intros r Hrin.
  destruct (Forall2_in_r _ _ _ _ HF Hrin) as [idx [Hsel [movie [Hnth ->]]]].
  apply filter_In in Hsel. destruct Hsel as [_ Hpos].
  apply positive_at_lt in Hpos. split; [exact Hpos|].
  exists idx, movie. split; [exact Hnth|].
  destruct (Hval idx) as [H|H]; [now rewrite H|].
  rewrite H in Hpos. now apply Qlt_irrefl in Hpos.
Qed.

Lemma returned_scores_positive_witness :
  exists recs,
    recommend_movies Sample.nltk Sample.sqrt stable_numpy Sample.recommender
      "Hindi web series" 3 (Some (Sample.only_language (LStr "hi")))
      = Some recs /\
    Forall (fun r =>
              0 < Recommendation.similarity_score r /\
              exists idx movie,
                nth_error (movies Sample.recommender) idx = Some movie /\
                r = recommendation movie
                      (nth idx (similarities Sample.nltk Sample.sqrt
                                  Sample.recommender "Hindi web series") 0))
           recs.
Proof.
  apply (returned_scores_positive Sample.nltk Sample.sqrt stable_numpy
           Sample.recommender
           "Hindi web series" 3 (Some (Sample.only_language (LStr "hi")))).
  reflexivity.
Defined.

Lemma slice_from_nested {A : Type} (n m : Z) (l : list A) :
  (0 < n <= m)%Z ->
  exists pre, Py.slice_from (- m) l = pre ++ Py.slice_from (- n) l.
Proof.
  intros Hnm. unfold Py.slice_from.
  assert (Hn : (- n <? 0)%Z = true) by (apply Z.ltb_lt; lia).
  assert (Hm : (- m <? 0)%Z = true) by (apply Z.ltb_lt; lia).
  rewrite Hn, Hm.
  set (len := Z.of_nat (List.length l)).
  set (a := Z.to_nat (Z.max 0 (len + - m))).
  set (b := Z.to_nat (Z.max 0 (len + - n))).
  assert (Hab : (a <= b)%nat) by (unfold a, b; lia).
  exists (firstn (b - a) (skipn a l)).
  replace (skipn b l) with (skipn (b - a) (skipn a l)).
  - symmetry. apply firstn_skipn.
  - rewrite skipn_skipn. f_equal. lia.
Qed.

(** X2.  Asking for more results only appends: for [0 < n <= m] the result
    for [n] is the beginning of the result for [m]. *)
Theorem smaller_n_is_prefix nltk sqrt np self query n m filters :
  index_built self ->
  (0 < n <= m)%Z ->
  exists recs more,
    recommend_movies nltk sqrt np self query n filters = Some recs /\
    recommend_movies nltk sqrt np self query m filters = Some (recs ++ more).
Proof.
  intros Hwf Hnm. unfold recommend_movies.
  set (cs := similarities nltk sqrt self query).
  assert (Hlen : List.length cs = List.length (movies self)).
  { unfold cs. rewrite similarities_length. exact Hwf. }
  destruct (rank_scores_spec np (movies self) cs n filters Hlen)
    as [cs' [recs [Hm [Hr _]]]].
  destruct (rank_scores_spec np (movies self) cs m filters Hlen)
    as [cs2 [recs_m [Hm2 [Hr2 _]]]].
  assert (cs2 = cs') by congruence. subst cs2.
  exists recs. unfold rank_scores in *. rewrite Hm in *.
  destruct (slice_from_nested n m (argsort np cs') Hnm) as [pre Hpre].
  unfold top_indices in *. rewrite Hpre, rev_app_distr in Hr2.
  rewrite recommendations_app, Hr in Hr2.
  destruct (recommendations (movies self) cs' (rev pre)) as [more|] eqn:Hmore;
    [|discriminate].
  exists more. split; [exact Hr|].
  now rewrite Hpre, rev_app_distr, recommendations_app, Hr, Hmore.
Qed.

Lemma smaller_n_is_prefix_witness :
  exists recs more,
    recommend_movies Sample.nltk Sample.sqrt stable_numpy Sample.recommender
      "hindi" 1 None = Some recs /\
    recommend_movies Sample.nltk Sample.sqrt stable_numpy Sample.recommender
      "hindi" 2 None = Some (recs ++ more).
Proof.
  apply (smaller_n_is_prefix Sample.nltk Sample.sqrt stable_numpy
           Sample.recommender
           "hindi" 1 2 None).
  - reflexivity.
  - lia.
Defined.

Lemma slice_from_cut {A : Type} (n : Z) (l : list A) :
  (0 < n)%Z ->
  exists pre,
    l = pre ++ Py.slice_from (- n) l /\
    (pre <> [] -> Z.of_nat (List.length (Py.slice_from (- n) l)) = n).
Proof.
  intros Hn. unfold Py.slice_from.
  assert (Hneg : (- n <? 0)%Z = true) by (apply Z.ltb_lt; lia).
  rewrite Hneg.
  set (a := Z.to_nat (Z.max 0 (Z.of_nat (List.length l) + - n))).
  exists (firstn a l). split; [symmetry; apply firstn_skipn|].
  intros Hpre. rewrite length_skipn.
  assert (Ha : (a <> 0)%nat).
  { intros H0. apply Hpre. now rewrite H0. }
  unfold a in *. lia.
Qed.

(** X3.  The [n] results are the best ones: for [n > 0], when an entry with a
    positive score after the filter step is left out, exactly [n]
    dictionaries are returned and each of them has a score at least as
    high. *)
Theorem left_out_entry_is_not_better nltk sqrt np self query n filters :
  index_built self ->
  (0 < n)%Z ->
  exists cs recs,
    apply_mask (movies self) filters (similarities nltk sqrt self query)
      = Some cs /\
    recommend_movies nltk sqrt np self query n filters = Some recs /\
    forall idx,
      (idx < List.length (movies self))%nat ->
      0 < nth idx cs 0 ->
      ~ In idx (selected_indices np cs n) ->
      Z.of_nat (List.length recs) = n /\
      Forall (fun r => nth idx cs 0 <= Recommendation.similarity_score r) recs.
Proof.
  intros Hwf Hn. unfold recommend_movies.
  set (cs0 := similarities nltk sqrt self query).
  assert (Hlen : List.length cs0 = List.length (movies self)).
  { unfold cs0. rewrite similarities_length. exact Hwf. }
  destruct (apply_mask_spec (movies self) filters cs0 Hlen)
    as [cs1 [Hm1 [Hlen1 _]]].
  destruct (rank_scores_spec np (movies self) cs0 n filters Hlen)
    as [cs [recs [Hm [Hr HF]]]].
  assert (cs1 = cs) by congruence. subst cs1.
  exists cs, recs. split; [exact Hm|]. split; [exact Hr|].
  intros idx Hidx Hpos Hout.
  destruct (slice_from_cut n (argsort np cs) Hn) as [pre [Hpre Hfull]].
  set (suf := Py.slice_from (- n) (argsort np cs)) in *.
  assert (Hin : In idx pre).
  { assert (Hall : In idx (pre ++ suf)).
    { rewrite <- Hpre. apply (argsort_in np). lia. }
    apply in_app_or in Hall. destruct Hall as [H|H]; [exact H|].
    exfalso. apply Hout. unfold selected_indices, top_indices.
    apply filter_In. split; [now apply in_rev in H|].
    now apply positive_at_lt. }
  pose proof (argsort_ascending np cs) as Hs. rewrite Hpre in Hs.
  assert (Hge : forall j, In j suf -> nth idx cs 0 <= nth j cs 0).
  { intros j Hj.
    apply (StronglySorted_app_cross _ _ _ _ _ Hs Hin Hj). }
  assert (Hsel : selected_indices np cs n = rev suf).
  { unfold selected_indices, top_indices. fold suf. apply filter_all.
    rewrite Forall_forall. intros j Hj. apply in_rev in Hj.
    apply positive_at_lt. eapply Qlt_le_trans; [exact Hpos|now apply Hge]. }
  rewrite Hsel in HF. split.
  - rewrite <- (Forall2_length_eq _ _ _ HF), length_rev.
    apply Hfull. intros Hnil. now rewrite Hnil in Hin.
  - rewrite Forall_forall. intros r Hrin.
    destruct (Forall2_in_r _ _ _ _ HF Hrin) as [j [Hj [movie [_ ->]]]].
    simpl. apply Hge. now apply in_rev.
Qed.

Lemma left_out_entry_is_not_better_witness :
  exists cs recs,
    apply_mask (movies Sample.recommender) None
      (similarities Sample.nltk Sample.sqrt Sample.recommender "hindi")
      = Some cs /\
    recommend_movies Sample.nltk Sample.sqrt stable_numpy
        Sample.recommender "hindi" 1 None
      = Some recs /\
    forall idx,
      (idx < List.length (movies Sample.recommender))%nat ->
      0 < nth idx cs 0 ->
      ~ In idx (selected_indices stable_numpy cs 1) ->
      Z.of_nat (List.length recs) = 1%Z /\
      Forall (fun r => nth idx cs 0 <= Recommendation.similarity_score r) recs.
Proof.
  apply (left_out_entry_is_not_better Sample.nltk Sample.sqrt stable_numpy
           Sample.recommender "hindi" 1 None).
  - reflexivity.
  - lia.
Defined.

Lemma selected_indices_NoDup np cs n : NoDup (selected_indices np cs n).
Proof.
  unfold selected_indices, top_indices.
  apply NoDup_filter, NoDup_rev.
  destruct (slice_from_suffix (- n) (argsort np cs)) as [pre Hpre].
  pose proof (argsort_NoDup np cs) as Hnd.
  rewrite Hpre in Hnd. now apply NoDup_app_remove_l in Hnd.
Qed.

Lemma result_ids movies cs sel recs :
  Forall2 (result_at movies cs) sel recs ->
  Forall2 (fun idx id => option_map Movie.id (nth_error movies idx) = Some id)
          sel (map Recommendation.id recs).
Proof.
  induction 1 as [|idx r sel recs [movie [Hnth ->]] HF IH]; simpl;
    constructor; [now rewrite Hnth|exact IH].
Qed.

(** X4.  When the ids of the catalog are pairwise distinct, no id is returned
    twice. *)
Theorem returned_ids_distinct nltk sqrt np self query n filters :
  index_built self ->
  NoDup (map Movie.id (movies self)) ->
  exists recs,
    recommend_movies nltk sqrt np self query n filters = Some recs /\
    NoDup (map Recommendation.id recs).
Proof.
  intros Hwf Hids. unfold recommend_movies.
  set (cs0 := similarities nltk sqrt self query).
  assert (Hlen : List.length cs0 = List.length (movies self)).
  { unfold cs0. rewrite similarities_length. exact Hwf. }
  destruct (rank_scores_spec np (movies self) cs0 n filters Hlen)
    as [cs [recs [_ [Hr HF]]]].
  exists recs. split; [exact Hr|].
  apply result_ids in HF.
  pose proof (selected_indices_NoDup np cs n) as Hnd.
  revert HF Hnd. generalize (selected_indices np cs n) as sel.
  generalize (map Recommendation.id recs) as ids.
  intros ids sel HF. induction HF as [|idx id sel ids Hid HF IH]; intros Hnd.
  - constructor.
  - inversion Hnd as [|? ? Hnotin Hnd']; subst.
    constructor; [|now apply IH].
    intros Hin. apply Hnotin. clear IH Hnd Hnd' Hnotin.
    induction HF as [|idx' id' sel ids Hid' HF IH]; [contradiction|].
    destruct Hin as [->|Hin]; [left|right; now apply IH].
    rewrite NoDup_nth_error in Hids.
    destruct (nth_error (movies self) idx) as [m|] eqn:Hm; [|discriminate].
    destruct (nth_error (movies self) idx') as [m'|] eqn:Hm'; [|discriminate].
    simpl in Hid, Hid'. symmetry. apply Hids.
    + rewrite length_map. apply nth_error_Some. congruence.
    + rewrite !nth_error_map, Hm, Hm'. simpl. congruence.
Qed.

Lemma returned_ids_distinct_witness :
  exists recs,
    recommend_movies Sample.nltk Sample.sqrt stable_numpy Sample.recommender
      "Hindi web series" 10 None = Some recs /\
    NoDup (map Recommendation.id recs).
Proof.
  apply (returned_ids_distinct Sample.nltk Sample.sqrt stable_numpy
           Sample.recommender
           "Hindi web series" 10 None).
  - reflexivity.
  - simpl. repeat constructor; simpl; intuition discriminate.
Defined.

(** X5.  A language filter that carries a list of codes never restricts the
    result: no entry passes it, so the masking step is skipped and the
    call returns what the call without filters returns. *)
Theorem language_list_filter_ignored nltk sqrt np self query n f codes :
  Filters.language f = Some (LList codes) ->
  recommend_movies nltk sqrt np self query n (Some f) =
  recommend_movies nltk sqrt np self query n None.
Proof.
  intros Hl. unfold recommend_movies. apply rank_scores_no_match.
  apply apply_filters_nil. intros movie _.
  now apply include_language_list with (codes := codes).
Qed.

Lemma language_list_filter_ignored_witness :
  recommend_movies Sample.nltk Sample.sqrt stable_numpy Sample.recommender
    "south indian movies" 5
    (Some (Sample.only_language (LList ["ta"; "te"; "ml"; "kn"]))) =
  recommend_movies Sample.nltk Sample.sqrt stable_numpy Sample.recommender
    "south indian movies" 5 None.
Proof.
  apply (language_list_filter_ignored Sample.nltk Sample.sqrt stable_numpy
           Sample.recommender "south indian movies" 5
           (Sample.only_language (LList ["ta"; "te"; "ml"; "kn"]))
           ["ta"; "te"; "ml"; "kn"]).
  reflexivity.
Defined.

Lemma apply_filters_all movies f :
  (forall movie, In movie movies -> include f movie = true) ->
  _apply_filters movies f = seq 0 (List.length movies).
Proof.
  intros Hall. unfold _apply_filters.
  rewrite filter_all; [apply enumerate_fst|].
  rewrite Forall_forall. intros [i m] Hin. simpl.
  apply enumerate_in, nth_error_In in Hin. now apply Hall.
Qed.

Lemma zero_unless_in_all a :
  zero_unless_in (seq 0 (List.length a)) a = Some a.
Proof.
  destruct (zero_unless_in_spec (seq 0 (List.length a)) a)
    as [a' [H1 [H2 H3]]].
  - rewrite Forall_forall. intros i Hi. apply in_seq in Hi. lia.
  - rewrite H1. f_equal. apply nth_ext with (d := 0) (d' := 0); [exact H2|].
    intros i Hi. rewrite H3.
    assert (Hex : existsb (Nat.eqb i) (seq 0 (List.length a)) = true).
    { apply existsb_eqb_in, in_seq. lia. }
    now rewrite Hex.
Qed.

Lemma apply_mask_all movies f cs :
  List.length cs = List.length movies ->
  (forall movie, In movie movies -> include f movie = true) ->
  apply_mask movies (Some f) cs = Some cs.
Proof.
  intros Hlen Hall. unfold apply_mask, filters_given.
  destruct (Filters.nonempty f); [|reflexivity].
  rewrite (apply_filters_all _ _ Hall), <- Hlen.
  destruct (seq 0 (List.length cs)) eqn:E; [reflexivity|].
  rewrite <- E. apply zero_unless_in_all.
Qed.

(** X6.  A filter set that every catalog entry satisfies changes nothing:
    with the index built, the call returns what the call without filters
    returns. *)
Theorem filter_matching_all_changes_nothing nltk sqrt np self query n f :
  index_built self ->
  (forall movie, In movie (movies self) -> include f movie = true) ->
  recommend_movies nltk sqrt np self query n (Some f) =
  recommend_movies nltk sqrt np self query n None.
Proof.
  intros Hwf Hall. unfold recommend_movies, rank_scores.
  rewrite apply_mask_all; [reflexivity| |exact Hall].
  rewrite similarities_length. exact Hwf.
Qed.

Lemma filter_matching_all_changes_nothing_witness :
  recommend_movies Sample.nltk Sample.sqrt stable_numpy Sample.twins "hindi" 5
    (Some (Sample.only_language (LStr "hi"))) =
  recommend_movies Sample.nltk Sample.sqrt stable_numpy
      Sample.twins "hindi" 5 None.
Proof.
  apply (filter_matching_all_changes_nothing
           Sample.nltk Sample.sqrt stable_numpy
           Sample.twins "hindi" 5 (Sample.only_language (LStr "hi"))).
  - reflexivity.
  - intros movie [<-|[<-|[]]]; reflexivity.
Defined.

Lemma include_no_known_key f movie :
  Filters.year f = None -> Filters.genre f = None ->
  Filters.language f = None -> Filters.content_type f = None ->
  Filters.time_period f = None ->
  include f movie = true.
Proof.
  intros Hy Hg Hl Hc Ht. unfold include. now rewrite Hy, Hg, Hl, Hc, Ht.
Qed.

(** X7.  Keys that [_apply_filters] does not know are ignored: a filter
    dictionary that has only such keys gives, with the index built, the
    result of the call without filters. *)
Theorem unknown_filter_keys_ignored nltk sqrt np self query n k :
  index_built self ->
  recommend_movies nltk sqrt np self query n
    (Some (Filters.mk None None None None None k)) =
  recommend_movies nltk sqrt np self query n None.
Proof.
  intros Hwf. unfold recommend_movies, rank_scores.
  rewrite apply_mask_all; [reflexivity| |].
  - rewrite similarities_length. exact Hwf.
  - intros movie _. now apply include_no_known_key.
Qed.

Lemma unknown_filter_keys_ignored_witness :
  recommend_movies Sample.nltk Sample.sqrt stable_numpy
      Sample.recommender "hindi" 5
    (Some (Filters.mk None None None None None 2)) =
  recommend_movies Sample.nltk Sample.sqrt stable_numpy
      Sample.recommender "hindi" 5 None.
Proof.
  apply (unknown_filter_keys_ignored Sample.nltk Sample.sqrt stable_numpy
           Sample.recommender "hindi" 5 2%nat).
  reflexivity.
Defined.

(* ================================================================== *)
(** * Further properties of [_apply_filters] *)
(* ================================================================== *)

Lemma filtered_from_sorted {B : Type} (p : nat * B -> bool) (l : list B) k :
  StronglySorted lt (map fst (filter p (combine (seq k (List.length l)) l)))
  /\ Forall (fun i => (k <= i < k + List.length l)%nat)
            (map fst (filter p (combine (seq k (List.length l)) l))).
Proof.
  revert k. induction l as [|x l IH]; intros k; simpl.
  - split; constructor.
  - destruct (IH (S k)) as [Hs Hb].
    assert (Hb' : Forall (fun i => (k <= i < k + S (List.length l))%nat)
                    (map fst (filter p (combine (seq (S k) (List.length l)) l)))).
    { eapply Forall_impl; [|exact Hb]. simpl. intros i Hi. lia. }
    destruct (p (k, x)); simpl; [|now split].
    split.
    + constructor; [exact Hs|].
      eapply Forall_impl; [|exact Hb]. simpl. intros i Hi. lia.
    + constructor; [lia|exact Hb'].
Qed.

(** X8.  The matching indices are returned in catalog order, each once, and
    each is an index of the catalog. *)
Theorem apply_filters_increasing movies f :
  StronglySorted lt (_apply_filters movies f) /\
  Forall (fun i => (i < List.length movies)%nat) (_apply_filters movies f).
Proof.
  unfold _apply_filters, Py.enumerate.
  destruct (filtered_from_sorted (fun im => include f (snd im)) movies 0)
    as [Hs Hb].
  split; [exact Hs|].
  eapply Forall_impl; [|exact Hb]. simpl. intros i Hi. lia.
Qed.

(** X9.  Adding keys to a filter dictionary can only remove matches: every
    index that passes the larger dictionary passes the smaller one. *)
Theorem more_filters_fewer_matches movies f1 f2 :
  narrows f1 f2 ->
  incl (_apply_filters movies f2) (_apply_filters movies f1).
Proof.
  intros [Hy [Hg [Hl [Hc Ht]]]] i Hi.
  apply apply_filters_in in Hi. destruct Hi as [movie [Hnth Hinc]].
  apply apply_filters_in. exists movie. split; [exact Hnth|].
  rewrite include_conj in *.
  repeat (apply andb_true_iff in Hinc; destruct Hinc as [Hinc ?]).
  repeat (apply andb_true_iff; split).
  - unfold year_ok in *. destruct Hy as [->|<-]; auto.
  - unfold genre_ok in *. destruct Hg as [->|<-]; auto.
  - unfold language_ok in *. destruct Hl as [->|<-]; auto.
  - unfold content_type_ok in *. destruct Hc as [->|<-]; auto.
  - unfold period_ok in *. destruct Ht as [->|<-]; auto.
Qed.

Lemma more_filters_fewer_matches_witness :
  incl (_apply_filters (movies Sample.recommender)
          (Filters.mk None None (Some (LStr "hi")) (Some "tv") None 0))
       (_apply_filters (movies Sample.recommender)
          (Sample.only_language (LStr "hi"))).
Proof.
  apply (more_filters_fewer_matches (movies Sample.recommender)
           (Sample.only_language (LStr "hi"))
           (Filters.mk None None (Some (LStr "hi")) (Some "tv") None 0)).
  unfold narrows. simpl. repeat split; auto.
Defined.

(** ** [int(str(y)) == y] and the two year tests *)

Lemma parse_uint d acc after :
  d <> Decimal.Nil \/ after = true ->
  Py.parse_digits (uint_chars d) acc after = Some (uint_value d acc).
Proof.
  unfold uint_chars. revert acc after.
  induction d as [|d IH|d IH|d IH|d IH|d IH|d IH|d IH|d IH|d IH|d IH];
    intros acc after H;
    [destruct H as [H| ->]; [congruence|reflexivity]|..];
    simpl; apply IH; now right.
Qed.

Lemma uint_chars_digits d :
  Forall (fun c => Py.is_digit c = true) (uint_chars d).
Proof.
  unfold uint_chars.
  induction d; simpl; constructor; try reflexivity; assumption.
Qed.

Lemma uint_value_pos d p :
  uint_value d (Z.pos p) = Z.pos (Pos.of_uint_acc d p).
Proof.
  revert p. induction d; intros p; cbn [uint_value Pos.of_uint_acc];
    [reflexivity|..];
    match goal with
    | |- uint_value _ ?a = Z.pos (Pos.of_uint_acc _ ?q) =>
        replace a with (Z.pos q) by lia
    end; apply IHd.
Qed.

Lemma uint_value_zero d : uint_value d 0 = Z.of_N (Pos.of_uint d).
Proof.
  induction d; cbn [uint_value Pos.of_uint]; try reflexivity;
    try exact IHd;
    match goal with
    | |- uint_value _ ?a = Z.of_N (N.pos (Pos.of_uint_acc _ ?q)) =>
        change a with (Z.pos q)
    end; apply uint_value_pos.
Qed.

Lemma lstrip_nonspace l :
  match l with c :: _ => Py.is_int_space c = false | [] => True end ->
  Py.lstrip l = l.
Proof.
  destruct l as [|c l]; simpl; [reflexivity|]. now intros ->.
Qed.

Lemma strip_no_space l :
  Forall (fun c => Py.is_int_space c = false) l -> Py.strip l = l.
Proof.
  intros H. unfold Py.strip.
  rewrite (lstrip_nonspace l) by (destruct H; auto).
  rewrite lstrip_nonspace; [apply rev_involutive|].
  destruct (rev l) as [|c r] eqn:E; [exact I|].
  rewrite Forall_forall in H. apply H, in_rev. rewrite E. now left.
Qed.

Lemma digit_not_space c : Py.is_digit c = true -> Py.is_int_space c = false.
Proof.
  destruct c as [[] [] [] [] [] [] [] []]; vm_compute; intros H;
    try discriminate H; reflexivity.
Qed.

Lemma int_of_uint_chars d :
  d <> Decimal.Nil ->
  Py.int (NilEmpty.string_of_uint d) = Some (uint_value d 0).
Proof.
  intros Hd. unfold Py.int. fold (uint_chars d).
  rewrite strip_no_space.
  2:{ eapply Forall_impl; [|apply uint_chars_digits].
      intros c. apply digit_not_space. }
  rewrite <- (parse_uint d 0 false) by now left.
  unfold uint_chars. destruct d; try congruence; reflexivity.
Qed.

(** [int] skips blanks around the numeral and nothing else: a numeral
    after a separator character is a [ValueError]. *)
Example int_white_space :
  Py.int " 12 " = Some 12%Z /\
  Py.int (String (ascii_of_nat 28) "12") = None /\
  Py.int (String (ascii_of_nat 31) "12") = None.
Proof.
  repeat split; reflexivity.
Qed.

(** [int(str(z)) == z]. *)
Lemma int_str_of_int z : Py.int (Py.str_of_int z) = Some z.
Proof.
  unfold Py.str_of_int. destruct z as [|p|p]; [reflexivity| |].
  - simpl. pose proof (DecimalPos.Unsigned.to_uint_nonnil p) as Hnn.
    unfold NilZero.string_of_uint.
    destruct (Pos.to_uint p) eqn:E; try congruence;
      rewrite <- E; (rewrite int_of_uint_chars by congruence);
      now rewrite uint_value_zero, DecimalPos.Unsigned.of_to.
  - simpl. pose proof (DecimalPos.Unsigned.to_uint_nonnil p) as Hnn.
    assert (Hs : NilZero.string_of_uint (Pos.to_uint p)
                 = NilEmpty.string_of_uint (Pos.to_uint p)).
    { unfold NilZero.string_of_uint.
      destruct (Pos.to_uint p); try congruence; reflexivity. }
    rewrite Hs. unfold Py.int.
    change (list_ascii_of_string
              (String "-" (NilEmpty.string_of_uint (Pos.to_uint p))))
      with ("-"%char :: uint_chars (Pos.to_uint p)).
    rewrite strip_no_space.
    2:{ constructor; [reflexivity|].
        eapply Forall_impl; [|apply uint_chars_digits].
        intros c. apply digit_not_space. }
    rewrite parse_uint by now left.
    now rewrite uint_value_zero, DecimalPos.Unsigned.of_to.
Qed.

Lemma year_str_period_year movie y :
  year_str movie = Py.str_of_int y -> period_year movie = y.
Proof.
  unfold year_str, period_year. intros H.
  assert (Hne : Py.str_of_int y <> "").
  { intros E. pose proof (int_str_of_int y) as Hi. rewrite E in Hi.
    discriminate Hi. }
  destruct (Py.truthy (Movie.release_date movie)).
  - destruct (Movie.release_date movie); [|congruence].
    now rewrite H, int_str_of_int.
  - destruct (Py.truthy (Movie.first_air_date movie)); [|congruence].
    destruct (Movie.first_air_date movie); [|congruence].
    now rewrite H, int_str_of_int.
Qed.

(** X10.  The year filter and the time-period filter read the same year: an
    entry that passes a filter dictionary with the year [y] (an [int])
    and the period [start_year, end_year] has
    [start_year <= y <= end_year]. *)
Theorem year_and_period_agree f movie y start_year end_year :
  Filters.year f = Some (YInt y) ->
  Filters.time_period f = Some (start_year, end_year) ->
  include f movie = true ->
  (start_year <= y <= end_year)%Z.
Proof.
  intros Hy Hp Hinc. rewrite include_conj in Hinc.
  assert (Hboth : year_ok f movie = true /\ period_ok f movie = true).
  { destruct (year_ok f movie), (period_ok f movie); simpl in Hinc;
      rewrite ?andb_false_r in Hinc; try discriminate Hinc; now split. }
  destruct Hboth as [Hyear Hper].
  unfold year_ok in Hyear. rewrite Hy in Hyear. simpl in Hyear.
  apply String.eqb_eq, year_str_period_year in Hyear.
  unfold period_ok in Hper. rewrite Hp, Hyear in Hper.
  apply andb_true_iff in Hper. destruct Hper as [H1 H2].
  apply Z.leb_le in H1, H2. lia.
Qed.

Lemma year_and_period_agree_witness :
  include (Filters.mk (Some (YInt 2015)) None None None
                      (Some (2010, 2019)%Z) 0) Sample.dilwale = true /\
  (2010 <= 2015 <= 2019)%Z.
Proof.
  split; [reflexivity|].
  apply (year_and_period_agree
           (Filters.mk (Some (YInt 2015)) None None None
                       (Some (2010, 2019)%Z) 0)
           Sample.dilwale 2015 2010 2019).
  - reflexivity.
  - reflexivity.
  - reflexivity.
Defined.

(* ================================================================== *)
(** * Further properties of [_preprocess_text] *)
(* ================================================================== *)

Lemma normal_char_fixed c :
  is_normal_char c = true ->
  Py.lower_char c = c /\
  (Py.is_word c || Py.is_space c) = true /\
  Py.is_digit c = false.
Proof.
  destruct c as [[] [] [] [] [] [] [] []]; vm_compute; intros H;
    try discriminate H; repeat split.
Qed.

Lemma special_char_normal c :
  let c1 := Py.lower_char c in
  let c2 := if Py.is_word c1 || Py.is_space c1 then c1 else " "%char in
  Py.is_digit c2 = false -> is_normal_char c2 = true.
Proof.
  destruct c as [[] [] [] [] [] [] [] []]; vm_compute; intros H;
    try discriminate H; reflexivity.
Qed.

Lemma rewritten_normal s in_run :
  forallb is_normal_char
    (sub_digits (sub_special (map Py.lower_char s)) in_run) = true.
Proof.
  revert in_run. induction s as [|c s IH]; intros in_run; simpl;
    [reflexivity|].
  pose proof (special_char_normal c) as Hc. simpl in Hc.
  destruct (Py.is_digit
              (if Py.is_word (Py.lower_char c) || Py.is_space (Py.lower_char c)
               then Py.lower_char c else " "%char)).
  - destruct in_run; simpl; now rewrite IH.
  - simpl. now rewrite Hc, IH.
Qed.

Lemma rewritten_fixed s :
  forallb is_normal_char s = true ->
  sub_digits (sub_special (map Py.lower_char s)) false = s.
Proof.
  induction s as [|c s IH]; simpl; [reflexivity|].
  intros H. apply andb_true_iff in H. destruct H as [Hc Hs].
  destruct (normal_char_fixed c Hc) as [Hl [Hw Hd]].
  rewrite Hl, Hw, Hd. f_equal. now apply IH.
Qed.

Lemma rewritten_length s in_run :
  (List.length (sub_digits (sub_special (map Py.lower_char s)) in_run)
   <= List.length s)%nat.
Proof.
  revert in_run. induction s as [|c s IH]; intros in_run; simpl; [lia|].
  destruct (Py.is_digit _).
  - destruct in_run; simpl.
    + specialize (IH true). lia.
    + specialize (IH true). lia.
  - simpl. specialize (IH false). lia.
Qed.

(** X11.  The text handed to the tokenizer has only lower-case letters,
    underscores and white space (no digit, no capital, no punctuation),
    and it is not longer than the input. *)
Theorem clean_output_characters text :
  forallb is_normal_char (list_ascii_of_string (clean text)) = true /\
  (String.length (clean text) <= String.length text)%nat.
Proof.
  unfold clean, Py.lower. rewrite !list_ascii_of_string_of_list_ascii.
  split; [apply rewritten_normal|].
  rewrite <- (string_of_list_ascii_of_string text) at 2.
  assert (Hlen : forall l, String.length (string_of_list_ascii l)
                           = List.length l).
  { induction l; simpl; congruence. }
  rewrite !Hlen. apply rewritten_length.
Qed.

(** X12.  The three rewriting steps (lower-casing, removal of special
    characters, removal of digit runs) are idempotent as a whole. *)
Theorem clean_idempotent text : clean (clean text) = clean text.
Proof.
  assert (Hnorm : forallb is_normal_char (list_ascii_of_string (clean text))
                  = true).
  { unfold clean, Py.lower. rewrite !list_ascii_of_string_of_list_ascii.
    apply rewritten_normal. }
  unfold clean at 1. unfold Py.lower.
  rewrite list_ascii_of_string_of_list_ascii.
  rewrite (rewritten_fixed _ Hnorm).
  apply string_of_list_ascii_of_string.
Qed.

(* ================================================================== *)
(** * Properties of [extract_keywords_from_query] *)
(* ================================================================== *)

Lemma digit_value_range c :
  Py.is_digit c = true -> (0 <= Py.digit_value c <= 9)%Z.
Proof.
  unfold Py.is_digit, Py.digit_value. intros H.
  apply andb_true_iff in H. destruct H as [H1 H2].
  apply Nat.leb_le in H1, H2. lia.
Qed.

Lemma year_prefix_value s y rest :
  year_prefix s = Some (y, rest) ->
  exists v, Py.int (string_of_list_ascii y) = Some v /\ (1900 <= v <= 2099)%Z.
Proof.
  destruct s as [|c1 [|c2 [|c3 [|c4 s]]]]; simpl; try discriminate.
  destruct ((Ascii.eqb c1 "1" && Ascii.eqb c2 "9")
            || (Ascii.eqb c1 "2" && Ascii.eqb c2 "0")) eqn:Hhead;
    simpl; [|discriminate].
  destruct (Py.is_digit c3) eqn:H3; simpl; [|discriminate].
  destruct (Py.is_digit c4) eqn:H4; simpl; [|discriminate].
  intros H. inversion H; subst y rest. clear H.
  pose proof (digit_value_range c3 H3) as R3.
  pose proof (digit_value_range c4 H4) as R4.
  unfold Py.int. rewrite list_ascii_of_string_of_list_ascii.
  apply orb_true_iff in Hhead.
  destruct Hhead as [Hhead|Hhead]; apply andb_true_iff in Hhead;
    destruct Hhead as [E1 E2]; apply Ascii.eqb_eq in E1, E2; subst c1 c2;
    (rewrite strip_no_space
      by (repeat constructor; now apply digit_not_space));
    cbn [Py.parse_digits]; change (Py.is_digit "1") with true;
    change (Py.is_digit "9") with true; change (Py.is_digit "2") with true;
    change (Py.is_digit "0") with true; cbv iota;
    rewrite H3, H4; eexists; (split; [reflexivity|]);
    change (Py.digit_value "1") with 1%Z; change (Py.digit_value "9") with 9%Z;
    change (Py.digit_value "2") with 2%Z; change (Py.digit_value "0") with 0%Z;
    lia.
Qed.

Lemma search_year_value s before y :
  search_year s before = Some y ->
  exists v, Py.int y = Some v /\ (1900 <= v <= 2099)%Z.
Proof.
  revert before. induction s as [|c s IH]; intros before.
  - simpl. discriminate.
  - cbn [search_year].
    destruct (year_prefix (c :: s)) as [[y0 rest]|] eqn:Hp.
    + destruct (word_boundary before (hd_error (c :: s))
                && word_boundary (nth_error y0 3) (hd_error rest)).
      * intros H. inversion H; subst y.
        now apply year_prefix_value with (s := c :: s) (rest := rest).
      * apply IH.
    + apply IH.
Qed.

Lemma extract_keywords_suffix query :
  exists enhanced filters suffix,
    extract_keywords_from_query query = Some (enhanced, filters) /\
    enhanced = (query ++ suffix)%string.
Proof.
  unfold extract_keywords_from_query.
  assert (Hno : forall s : string, (s ++ "")%string = s).
  { induction s; simpl; congruence. }
  destruct (search_year (list_ascii_of_string query) None) as [y|] eqn:Hy.
  - destruct (search_year_value _ _ _ Hy) as [v [Hv _]]. rewrite Hv.
    destruct (find (fun fk => mentions query (fst fk)) feeling_mapping)
      as [[feeling keywords]|].
    + do 3 eexists. split; reflexivity.
    + exists query. eexists. exists "". split; [reflexivity|].
      now rewrite Hno.
  - destruct (find (fun fk => mentions query (fst fk)) feeling_mapping)
      as [[feeling keywords]|].
    + do 3 eexists. split; reflexivity.
    + exists query. eexists. exists "". split; [reflexivity|].
      now rewrite Hno.
Qed.

Lemma find_first {A : Type} (f : A -> bool) (before after : list A) (x : A) :
  (forall y, In y before -> f y = false) ->
  f x = true ->
  find f (before ++ x :: after) = Some x.
Proof.
  intros Hb Hx. induction before as [|y before IH]; simpl.
  - now rewrite Hx.
  - rewrite (Hb y) by now left. apply IH. intros z Hz. apply Hb. now right.
Qed.

(** X13.  The interpreter never fails, and it changes the query only by
    appending mood keywords.  When no mood word of [feeling_mapping]
    occurs in the query, the enhanced query is the query; otherwise it
    is the query, a space, and the keywords, joined by spaces, of the
    first mood word of [feeling_mapping] that occurs. *)
Theorem extract_keywords_appends query :
  exists enhanced filters,
    extract_keywords_from_query query = Some (enhanced, filters) /\
    ((forall fk, In fk feeling_mapping -> mentions query (fst fk) = false) ->
     enhanced = query) /\
    (forall before feeling keywords after,
       feeling_mapping = before ++ (feeling, keywords) :: after ->
       (forall fk, In fk before -> mentions query (fst fk) = false) ->
       mentions query feeling = true ->
       enhanced = (query ++ " " ++ Py.join " " keywords)%string).
Proof.
  unfold extract_keywords_from_query.
  assert (Hyear : exists year,
    match search_year (list_ascii_of_string query) None with
    | Some year_match =>
        match Py.int year_match with
        | Some y => Some (Some (YInt y))
        | None => None
        end
    | None => Some None
    end = Some year).
  { destruct (search_year (list_ascii_of_string query) None) as [y|] eqn:Hy.
    - destruct (search_year_value _ _ _ Hy) as [v [Hv _]]. rewrite Hv.
      now eexists.
    - now eexists. }
  destruct Hyear as [year ->].
  do 2 eexists. split; [reflexivity|]. split.
  - intros Hnone.
    destruct (find (fun fk => mentions query (fst fk)) feeling_mapping)
      as [[feeling keywords]|] eqn:E; [|reflexivity].
    apply find_some in E. destruct E as [Hin Hm].
    rewrite (Hnone _ Hin) in Hm. discriminate.
  - intros before feeling keywords after Hmap Hbefore Hm.
    rewrite Hmap.
    rewrite (find_first (fun fk => mentions query (fst fk)) before after
               (feeling, keywords) Hbefore Hm).
    reflexivity.
Qed.

(** X14.  The filters come from the fixed vocabularies: the year is an [int]
    between 1900 and 2099, the genre is one of [genre_keywords], the
    language is a value of [region_keywords], the content type is
    ["movie"] or ["tv"], and no other key is set. *)
Theorem extracted_filters_wellformed query enhanced filters :
  extract_keywords_from_query query = Some (enhanced, filters) ->
  (forall y, Filters.year filters = Some y ->
             exists v, y = YInt v /\ (1900 <= v <= 2099)%Z) /\
  (forall g, Filters.genre filters = Some g -> In g genre_keywords) /\
  (forall l, Filters.language filters = Some l ->
             In l (map snd region_keywords)) /\
  (forall c, Filters.content_type filters = Some c ->
             c = "movie" \/ c = "tv") /\
  Filters.time_period filters = None /\
  Filters.other_keys filters = 0%nat.
Proof.
  unfold extract_keywords_from_query.
  remember (find (mentions query) genre_keywords) as G eqn:HG.
  remember (extract_language query) as L eqn:HL.
  remember (find (fun kv => mentions query (fst kv)) content_type_keywords)
    as C eqn:HC.
  assert (Hg : forall g, G = Some g -> In g genre_keywords).
  { intros g E. subst G. now apply find_some in E. }
  assert (Hl : forall l, L = Some l -> In l (map snd region_keywords)).
  { intros l E. subst L. unfold extract_language in E.
    destruct (find _ region_keywords) as [rl|] eqn:F; [|discriminate].
    injection E as <-. apply find_some in F. now apply in_map. }
  assert (Hc : forall c, option_map snd C = Some c -> c = "movie" \/ c = "tv").
  { intros c E. destruct C as [kv|]; [|discriminate].
    injection E as <-. symmetry in HC. apply find_some in HC.
    destruct HC as [F _]. simpl in F.
    repeat (destruct F as [<-|F]; [simpl; auto|]). contradiction. }
  clear HG HL HC.
  destruct (search_year (list_ascii_of_string query) None) as [ym|] eqn:Hy.
  - destruct (search_year_value _ _ _ Hy) as [v [Hv Hrange]]. rewrite Hv.
    intros [= <- <-]. simpl. repeat split; auto.
    intros y [= <-]. now exists v.
  - intros [= <- <-]. simpl. repeat split; auto. discriminate.
Qed.

Lemma extracted_filters_wellformed_witness :
  let filters := Filters.mk (Some (YInt 2015)) None (Some (LStr "ta"))
                            (Some "movie") None 0 in
  (forall y, Filters.year filters = Some y ->
             exists v, y = YInt v /\ (1900 <= v <= 2099)%Z) /\
  (forall g, Filters.genre filters = Some g -> In g genre_keywords) /\
  (forall l, Filters.language filters = Some l ->
             In l (map snd region_keywords)) /\
  (forall c, Filters.content_type filters = Some c ->
             c = "movie" \/ c = "tv") /\
  Filters.time_period filters = None /\
  Filters.other_keys filters = 0%nat.
Proof.
  apply (extracted_filters_wellformed "tamil movie from 2015"
           "tamil movie from 2015").
  vm_compute. reflexivity.
Defined.

Lemma lower_char_facts c :
  Py.lower_char (Py.lower_char c) = Py.lower_char c /\
  Py.is_word (Py.lower_char c) = Py.is_word c /\
  Py.is_digit (Py.lower_char c) = Py.is_digit c /\
  (Py.is_digit c = true -> Py.lower_char c = c).
Proof.
  destruct c as [[] [] [] [] [] [] [] []]; vm_compute; repeat split;
    intros H; try discriminate H; reflexivity.
Qed.

Lemma lower_lower s : Py.lower (Py.lower s) = Py.lower s.
Proof.
  unfold Py.lower. rewrite list_ascii_of_string_of_list_ascii, map_map.
  f_equal. apply map_ext. intros c. exact (proj1 (lower_char_facts c)).
Qed.

Lemma word_boundary_lower a b :
  word_boundary (option_map Py.lower_char a) (option_map Py.lower_char b)
  = word_boundary a b.
Proof.
  unfold word_boundary.
  destruct a as [a|], b as [b|]; simpl;
    rewrite ?(proj1 (proj2 (lower_char_facts a))),
            ?(proj1 (proj2 (lower_char_facts b))); reflexivity.
Qed.

Lemma eqb_digit_lower c d :
  Py.is_digit d = true ->
  Ascii.eqb (Py.lower_char c) d = Ascii.eqb c d.
Proof.
  intros Hd. destruct (Ascii.eqb c d) eqn:E.
  - apply Ascii.eqb_eq in E. subst c.
    rewrite (proj2 (proj2 (proj2 (lower_char_facts d))) Hd).
    apply Ascii.eqb_refl.
  - apply Ascii.eqb_neq in E. apply Ascii.eqb_neq. intros H. apply E.
    assert (Hc : Py.is_digit c = true).
    { rewrite <- (proj1 (proj2 (proj2 (lower_char_facts c)))), H. exact Hd. }
    rewrite <- H. symmetry.
    now apply (proj2 (proj2 (proj2 (lower_char_facts c)))).
Qed.

Lemma year_prefix_lower s :
  year_prefix (map Py.lower_char s) =
  match year_prefix s with
  | Some (y, rest) => Some (y, map Py.lower_char rest)
  | None => None
  end.
Proof.
  destruct s as [|c1 [|c2 [|c3 [|c4 s]]]]; try reflexivity.
  cbn [map year_prefix].
  rewrite !eqb_digit_lower by reflexivity.
  rewrite !(proj1 (proj2 (proj2 (lower_char_facts c3)))).
  rewrite !(proj1 (proj2 (proj2 (lower_char_facts c4)))).
  destruct ((Ascii.eqb c1 "1" && Ascii.eqb c2 "9")
            || (Ascii.eqb c1 "2" && Ascii.eqb c2 "0")) eqn:Hhead;
    [|reflexivity].
  destruct (Py.is_digit c3) eqn:H3; [|reflexivity].
  destruct (Py.is_digit c4) eqn:H4; [|reflexivity].
  cbn [andb].
  assert (H1 : Py.is_digit c1 = true /\ Py.is_digit c2 = true).
  { apply orb_true_iff in Hhead.
    destruct Hhead as [H|H]; apply andb_true_iff in H; destruct H as [E1 E2];
      apply Ascii.eqb_eq in E1, E2; subst; now split. }
  destruct H1 as [H1 H2].
  now rewrite !(proj2 (proj2 (proj2 (lower_char_facts _)))) by assumption.
Qed.

Lemma search_year_lower s before :
  search_year (map Py.lower_char s) (option_map Py.lower_char before)
  = search_year s before.
Proof.
  revert before. induction s as [|c s IH]; intros before; [reflexivity|].
  change (map Py.lower_char (c :: s))
    with (Py.lower_char c :: map Py.lower_char s) at 1.
  cbn [search_year].
  change (Py.lower_char c :: map Py.lower_char s)
    with (map Py.lower_char (c :: s)).
  rewrite year_prefix_lower.
  specialize (IH (Some c)). simpl in IH.
  destruct (year_prefix (c :: s)) as [[y rest]|]; [|exact IH].
  assert (Hb1 : word_boundary (option_map Py.lower_char before)
                  (hd_error (map Py.lower_char (c :: s)))
                = word_boundary before (hd_error (c :: s))).
  { simpl. apply (word_boundary_lower before (Some c)). }
  assert (Hb2 : word_boundary (nth_error y 3)
                  (hd_error (map Py.lower_char rest))
                = word_boundary (nth_error y 3) (hd_error rest)).
  { destruct rest as [|r rest]; [reflexivity|]. simpl.
    unfold word_boundary. now rewrite (proj1 (proj2 (lower_char_facts r))). }
  rewrite Hb1, Hb2.
  destruct (word_boundary before (hd_error (c :: s))
            && word_boundary (nth_error y 3) (hd_error rest));
    [reflexivity|exact IH].
Qed.

Lemma extract_filters_lower query :
  option_map snd (extract_keywords_from_query (Py.lower query)) =
  option_map snd (extract_keywords_from_query query).
Proof.
  unfold extract_keywords_from_query, extract_language, mentions.
  rewrite !lower_lower.
  assert (Hy : search_year (list_ascii_of_string (Py.lower query)) None
               = search_year (list_ascii_of_string query) None).
  { unfold Py.lower. rewrite list_ascii_of_string_of_list_ascii.
    apply (search_year_lower _ None). }
  rewrite Hy.
  destruct (search_year (list_ascii_of_string query) None) as [y|];
    [destruct (Py.int y)|]; reflexivity.
Qed.

(** X15.  The filters do not depend on the case of the query: two queries
    that differ only in the case of their letters are given the same
    filters. *)
Theorem extracted_filters_ignore_case query1 query2 :
  Py.lower query1 = Py.lower query2 ->
  option_map snd (extract_keywords_from_query query1) =
  option_map snd (extract_keywords_from_query query2).
Proof.
  intros H.
  rewrite <- (extract_filters_lower query1), <- (extract_filters_lower query2).
  now rewrite H.
Qed.

Lemma extracted_filters_ignore_case_witness :
  option_map snd (extract_keywords_from_query "Sci-Fi WEB SERIES 2015") =
  option_map snd (extract_keywords_from_query "sci-fi web series 2015").
Proof.
  apply (extracted_filters_ignore_case "Sci-Fi WEB SERIES 2015"
           "sci-fi web series 2015").
  reflexivity.
Defined.

(* ================================================================== *)
(** * Properties of the endpoints [/api/recommend] and [/api/movie] *)
(* ================================================================== *)

Lemma recommend_movies_some nltk sqrt np self query n filters :
  index_built self ->
  exists recs,
    recommend_movies nltk sqrt np self query n filters = Some recs /\
    ((0 < n)%Z -> (Z.of_nat (List.length recs) <= n)%Z).
Proof.
  intros Hwf. unfold recommend_movies.
  assert (Hlen : List.length (similarities nltk sqrt self query)
                 = List.length (movies self)).
  { rewrite similarities_length. exact Hwf. }
  destruct (rank_scores_spec np _ _ n filters Hlen) as [cs [recs [_ [Hr HF]]]].
  exists recs. split; [exact Hr|]. intros Hn.
  rewrite <- (Forall2_length_eq _ _ _ HF).
  pose proof (top_indices_length np cs n Hn) as Htop.
  pose proof (filter_length_le (positive_at cs) (top_indices np cs n)) as Hf.
  unfold selected_indices. lia.
Qed.

(** X17.  A successful answer reports the query as it was sent and an enhanced
    query that starts with it, and holds at most [n] recommendations
    for a positive [n]: at most 10 when the request has no ['n']. *)
Theorem recommend_answer_shape nltk sqrt np recommender data
  original enhanced filters recs :
  index_built recommender ->
  recommend nltk sqrt np recommender data
    = Some (Recommended original enhanced filters recs) ->
  Request.query data = Some original /\
  (exists suffix, enhanced = (original ++ suffix)%string) /\
  (forall n, requested_n data = Some n -> (0 < n)%Z ->
             (Z.of_nat (List.length recs) <= n)%Z) /\
  (Request.n data = None -> (List.length recs <= 10)%nat).
Proof.
  intros Hwf. unfold recommend.
  destruct (requested_n data) as [n|] eqn:Hn; [|discriminate].
  destruct (Request.query data) as [[|c q]|]; try discriminate.
  destruct (extract_keywords_suffix (String c q))
    as [e [f [suffix [He Hsuf]]]].
  rewrite He.
  destruct (recommend_movies_some nltk sqrt np recommender e n
              (Some (override_filters data f)) Hwf) as [recs' [Hr Hbound]].
  rewrite Hr. intros [= <- <- <- <-].
  split; [reflexivity|]. split; [now exists suffix|]. split.
  - intros n' [= <-]. exact Hbound.
  - intros Hnone. unfold requested_n in Hn. rewrite Hnone in Hn.
    injection Hn as <-. assert (H : (0 < 10)%Z) by lia.
    specialize (Hbound H). lia.
Qed.

Lemma recommend_answer_shape_witness :
  exists filters recs,
    recommend Sample.nltk Sample.sqrt stable_numpy Sample.recommender
      (Request.mk (Some "something scary hindi") None None None None None)
    = Some (Recommended "something scary hindi"
              "something scary hindi horror thriller suspense" filters recs)
    /\ (List.length recs <= 10)%nat.
Proof.
  do 2 eexists.
  assert (H : recommend Sample.nltk Sample.sqrt stable_numpy Sample.recommender
      (Request.mk (Some "something scary hindi") None None None None None)
    = Some (Recommended "something scary hindi"
              "something scary hindi horror thriller suspense"
              _ _)) by (vm_compute; reflexivity).
  split; [exact H|].
  apply (recommend_answer_shape Sample.nltk Sample.sqrt stable_numpy
           Sample.recommender
           _ _ _ _ _ eq_refl H).
  reflexivity.
Defined.

(** X19.  [get_movie] finds an entry exactly when the id is in the catalog,
    and the entry found has the id asked for. *)
Theorem get_movie_found recommender movie_id :
  (forall movie, get_movie recommender movie_id = Some movie ->
                 In movie (movies recommender) /\ Movie.id movie = movie_id) /\
  (get_movie recommender movie_id = None <->
   ~ In movie_id (map Movie.id (movies recommender))).
Proof.
  unfold get_movie. split.
  - intros movie H. apply find_some in H. destruct H as [Hin Heq].
    split; [exact Hin|now apply Z.eqb_eq].
  - split.
    + intros H Hin. apply in_map_iff in Hin. destruct Hin as [m [Hid Hm]].
      pose proof (find_none _ _ H m Hm) as Hne. simpl in Hne.
      apply Z.eqb_neq in Hne. congruence.
    + intros Hnot.
      destruct (find _ (movies recommender)) as [m|] eqn:F; [|reflexivity].
      apply find_some in F. destruct F as [Hin Heq]. apply Z.eqb_eq in Heq.
      exfalso. apply Hnot. apply in_map_iff. now exists m.
Qed.

(** X20.  When the ids of the catalog are pairwise distinct, looking up the id
    of a catalog entry gives back that entry. *)
Theorem get_movie_of_entry recommender movie :
  NoDup (map Movie.id (movies recommender)) ->
  In movie (movies recommender) ->
  get_movie recommender (Movie.id movie) = Some movie.
Proof.
  unfold get_movie. induction (movies recommender) as [|m l IH]; simpl;
    intros Hnd Hin; [contradiction|].
  inversion Hnd as [|? ? Hnotin Hnd']; subst.
  destruct Hin as [->|Hin].
  - now rewrite Z.eqb_refl.
  - destruct (Z.eqb (Movie.id m) (Movie.id movie)) eqn:E.
    + apply Z.eqb_eq in E. exfalso. apply Hnotin. rewrite E.
      now apply in_map.
    + now apply IH.
Qed.

Lemma get_movie_of_entry_witness :
  get_movie Sample.recommender (Movie.id Sample.sacred_games)
  = Some Sample.sacred_games.
Proof.
  apply (get_movie_of_entry Sample.recommender Sample.sacred_games).
  - simpl. repeat constructor; simpl; intuition discriminate.
  - simpl. auto.
Defined.

(* ================================================================== *)
(** * Properties of [_process_movie_results] *)
(* ================================================================== *)

Lemma tag_details_id b s l item details details' :
  tag_details b s l item details = Some details' ->
  Movie.id details' = Movie.id details.
Proof.
  unfold tag_details.
  destruct b; [|destruct s; [destruct l; [|discriminate]|]];
    intros [= <-];
    destruct (Result.genre_tag item), (Result.language_tag item); reflexivity.
Qed.

Lemma new_entry_spec tmdb ids b s l item movie_id details :
  new_entry tmdb ids b s l item = Some (movie_id, details) ->
  Result.id item = Some movie_id /\
  Movie.id details = movie_id /\
  ~ In movie_id ids.
Proof.
  unfold new_entry, _get_movie_details.
  destruct (Result.id item) as [i|]; [|discriminate].
  destruct (negb (Z.eqb i 0) && negb (existsb (Z.eqb i) ids)) eqn:G;
    [|discriminate].
  destruct (tmdb i) as [data|]; [|discriminate].
  cbn [andb].
  destruct (tag_details b s l item (movie_data i data)) as [d|] eqn:T;
    [|discriminate].
  intros [= <- <-]. split; [reflexivity|]. split.
  - now rewrite (tag_details_id _ _ _ _ _ _ T).
  - apply andb_true_iff in G. destruct G as [_ G].
    apply negb_true_iff in G. intros Hin.
    assert (E : existsb (Z.eqb i) ids = true).
    { apply existsb_exists. exists i. split; [exact Hin|apply Z.eqb_refl]. }
    congruence.
Qed.

Lemma process_fold tmdb b s l results self count :
  exists added,
    fold_left (process_result tmdb b s l) results (self, count) =
    ({| Fetch.movies := Fetch.movies self ++ added;
        Fetch.unique_movie_ids :=
          rev (map Movie.id added) ++ Fetch.unique_movie_ids self |},
     (count + List.length added)%nat) /\
    (List.length added <= List.length results)%nat /\
    NoDup (map Movie.id added) /\
    (forall m, In m added ->
               ~ In (Movie.id m) (Fetch.unique_movie_ids self)).
Proof.
  revert self count.
  induction results as [|item results IH]; intros self count.
  - exists []. destruct self. simpl.
    rewrite app_nil_r, Nat.add_0_r. repeat split; try constructor.
    intros m [].
  - cbn [fold_left]. unfold process_result at 2.
    destruct (new_entry tmdb (Fetch.unique_movie_ids self) b s l item)
      as [[movie_id details]|] eqn:E.
    + apply new_entry_spec in E. destruct E as [_ [Hid Hnew]].
      destruct (IH {| Fetch.movies := Fetch.movies self ++ [details];
                      Fetch.unique_movie_ids :=
                        movie_id :: Fetch.unique_movie_ids self |} (S count))
        as [added [Hfold [Hlen [Hnd Hfresh]]]].
      cbn [Fetch.movies Fetch.unique_movie_ids] in *.
      exists (details :: added). rewrite Hfold. repeat split.
      * f_equal; [|simpl; lia].
        f_equal; [now rewrite <- app_assoc|].
        simpl. rewrite Hid, <- app_assoc. reflexivity.
      * simpl. lia.
      * simpl. constructor; [|exact Hnd].
        intros Hin. apply in_map_iff in Hin. destruct Hin as [m [Hm Hin]].
        apply (Hfresh m Hin). left. congruence.
      * intros m [<-|Hin]; [now rewrite Hid|].
        intros Hc. apply (Hfresh m Hin). now right.
    + destruct (IH self count) as [added [Hfold [Hlen [Hnd Hfresh]]]].
      exists added. rewrite Hfold. repeat split; auto. simpl. lia.
Qed.

(** X21.  [_process_movie_results] only appends: the catalog after the call is
    the catalog before it followed by the new entries, their ids are
    added to [unique_movie_ids], the count printed is their number, and
    there is at most one new entry per result. *)
Theorem process_movie_results_appends tmdb self results b s l :
  exists added,
    _process_movie_results tmdb self results b s l =
    ({| Fetch.movies := Fetch.movies self ++ added;
        Fetch.unique_movie_ids :=
          rev (map Movie.id added) ++ Fetch.unique_movie_ids self |},
     List.length added) /\
    (List.length added <= List.length results)%nat.
Proof.
  unfold _process_movie_results.
  destruct (process_fold tmdb b s l results self 0)
    as [added [Hfold [Hlen _]]].
  exists added. now split.
Qed.

(** X22.  [_process_movie_results] keeps the ids of the catalog pairwise
    distinct and recorded in [unique_movie_ids]. *)
Theorem process_movie_results_keeps_ids tmdb self results b s l :
  ids_tracked self ->
  ids_tracked (fst (_process_movie_results tmdb self results b s l)).
Proof.
  intros [Hnd Hincl]. unfold _process_movie_results.
  destruct (process_fold tmdb b s l results self 0)
    as [added [Hfold [_ [Hnd' Hfresh]]]].
  rewrite Hfold. unfold ids_tracked. simpl. rewrite map_app. split.
  - apply NoDup_app; [exact Hnd|exact Hnd'|].
    intros x Hx Hx'. apply in_map_iff in Hx'. destruct Hx' as [m [<- Hm]].
    apply (Hfresh m Hm). now apply Hincl.
  - intros x Hx. apply in_or_app. apply in_app_or in Hx.
    destruct Hx as [Hx|Hx]; [right; now apply Hincl|left].
    now apply in_rev in Hx.
Qed.

Lemma new_entry_known tmdb ids b s l item movie_id :
  Result.id item = Some movie_id -> In movie_id ids ->
  new_entry tmdb ids b s l item = None.
Proof.
  intros Hid Hin. unfold new_entry. rewrite Hid.
  assert (E : existsb (Z.eqb movie_id) ids = true).
  { apply existsb_exists. exists movie_id. split; [exact Hin|apply Z.eqb_refl]. }
  rewrite E. now rewrite andb_false_r.
Qed.

Lemma new_entry_mono tmdb ids ids' b s l item :
  new_entry tmdb ids b s l item = None -> incl ids ids' ->
  new_entry tmdb ids' b s l item = None.
Proof.
  unfold new_entry. intros H Hincl.
  destruct (Result.id item) as [i|]; [|reflexivity].
  destruct (negb (Z.eqb i 0) && negb (existsb (Z.eqb i) ids')) eqn:G';
    [|reflexivity].
  apply andb_true_iff in G'. destruct G' as [G0 G'].
  apply negb_true_iff in G'.
  assert (G : existsb (Z.eqb i) ids = false).
  { destruct (existsb (Z.eqb i) ids) eqn:E; [|reflexivity].
    apply existsb_exists in E. destruct E as [x [Hx Hi]].
    assert (E' : existsb (Z.eqb i) ids' = true).
    { apply existsb_exists. exists x. split; [now apply Hincl|exact Hi]. }
    congruence. }
  rewrite G0, G in H. exact H.
Qed.

Lemma process_fold_skips tmdb b s l results self count :
  (forall item, In item results ->
                new_entry tmdb (Fetch.unique_movie_ids self) b s l item = None) ->
  fold_left (process_result tmdb b s l) results (self, count) = (self, count).
Proof.
  induction results as [|item results IH]; intros Hall; [reflexivity|].
  cbn [fold_left]. unfold process_result at 2.
  rewrite (Hall item) by now left.
  apply IH. intros it Hit. apply Hall. now right.
Qed.

Lemma process_fold_settles tmdb b s l results self count :
  let self' := fst (fold_left (process_result tmdb b s l) results (self, count)) in
  incl (Fetch.unique_movie_ids self) (Fetch.unique_movie_ids self') /\
  forall item, In item results ->
               new_entry tmdb (Fetch.unique_movie_ids self') b s l item = None.
Proof.
  revert self count.
  induction results as [|item results IH]; intros self count; simpl.
  - split; [apply incl_refl|intros item []].
  - destruct (new_entry tmdb (Fetch.unique_movie_ids self) b s l item)
      as [[movie_id details]|] eqn:E.
    + destruct (IH {| Fetch.movies := Fetch.movies self ++ [details];
                      Fetch.unique_movie_ids :=
                        movie_id :: Fetch.unique_movie_ids self |} (S count))
        as [Hincl Hnone].
      cbn [Fetch.unique_movie_ids] in Hincl. split.
      * intros x Hx. apply Hincl. now right.
      * intros it [<-|Hit]; [|now apply Hnone].
        apply new_entry_spec in E. destruct E as [Hid _].
        apply new_entry_known with (movie_id := movie_id); [exact Hid|].
        apply Hincl. now left.
    + destruct (IH self count) as [Hincl Hnone]. split; [exact Hincl|].
      intros it [<-|Hit]; [|now apply Hnone].
      now apply new_entry_mono with (ids := Fetch.unique_movie_ids self).
Qed.

(** X23.  Processing the same results a second time adds nothing: the state
    is unchanged and the count is 0. *)
Theorem process_movie_results_twice tmdb self results b s l :
  let self' := fst (_process_movie_results tmdb self results b s l) in
  _process_movie_results tmdb self' results b s l = (self', 0%nat).
Proof.
  intros self'. unfold _process_movie_results at 1.
  apply process_fold_skips.
  apply (process_fold_settles tmdb b s l results self 0).
Qed.

Lemma process_movie_results_keeps_ids_witness :
  ids_tracked (fst (_process_movie_results SampleFetch.tmdb SampleFetch.start
                      SampleFetch.page false false None)).
Proof.
  apply (process_movie_results_keeps_ids SampleFetch.tmdb SampleFetch.start
           SampleFetch.page false false None).
  unfold ids_tracked. simpl. split.
  - repeat constructor. simpl. tauto.
  - intros x Hx. exact Hx.
Defined.

(** X24.  With [is_south_indian] set and no [language], every turn of the loop
    ends in the caught exception of [language.lower()]: nothing is
    added. *)
Theorem south_indian_without_language_adds_nothing tmdb self results :
  _process_movie_results tmdb self results false true None = (self, 0%nat).
Proof.
  unfold _process_movie_results. apply process_fold_skips.
  intros item _. unfold new_entry.
  destruct (Result.id item) as [i|]; [|reflexivity].
  destruct (negb (Z.eqb i 0)
            && negb (existsb (Z.eqb i) (Fetch.unique_movie_ids self)));
    [|reflexivity].
  now destruct (_get_movie_details tmdb i false).
Qed.

(* ================================================================== *)
(** * Facts about counters and [sorted] *)
(* ================================================================== *)

Section CounterFacts.

Context {K : Type}.
Variable eqb : K -> K -> bool.
Variable eq_dec : forall x y : K, {x = y} + {x <> y}.
Hypothesis eqb_eq : forall x y, eqb x y = true <-> x = y.

Lemma eqb_dec x y : eqb x y = if eq_dec x y then true else false.
Proof.
  destruct (eq_dec x y) as [E|E].
  - now apply eqb_eq.
  - destruct (eqb x y) eqn:B; [|reflexivity]. now apply eqb_eq in B.
Qed.

Lemma get_increment k d k' :
  get_count eqb (increment eqb k d) k' =
  if eq_dec k k' then S (get_count eqb d k') else get_count eqb d k'.
Proof.
  unfold get_count. induction d as [|[k1 c] d IH]; simpl.
  - rewrite eqb_dec. now destruct (eq_dec k k').
  - rewrite (eqb_dec k1 k). destruct (eq_dec k1 k) as [E1|E1]; simpl.
    + subst k1. rewrite (eqb_dec k k'). now destruct (eq_dec k k').
    + rewrite (eqb_dec k1 k'). destruct (eq_dec k1 k') as [E2|E2].
      * subst k1. destruct (eq_dec k k'); [congruence|reflexivity].
      * exact IH.
Qed.

Lemma increment_keys k d k' :
  In k' (map fst (increment eqb k d)) <-> k' = k \/ In k' (map fst d).
Proof.
  induction d as [|[k1 c] d IH]; simpl.
  - intuition.
  - rewrite (eqb_dec k1 k). destruct (eq_dec k1 k) as [E|E]; simpl.
    + subst. intuition.
    + rewrite IH. intuition.
Qed.

Lemma increment_NoDup k d :
  NoDup (map fst d) -> NoDup (map fst (increment eqb k d)).
Proof.
  induction d as [|[k1 c] d IH]; simpl; intros H.
  - repeat constructor. intros [].
  - inversion H as [|? ? Hnotin Hnd]; subst.
    rewrite (eqb_dec k1 k). destruct (eq_dec k1 k) as [E|E]; simpl.
    + now constructor.
    + constructor; [|now apply IH].
      rewrite increment_keys. intros [->|Hin]; [congruence|contradiction].
Qed.

Lemma increment_positive k d :
  Forall (fun p => (0 < snd p)%nat) d ->
  Forall (fun p => (0 < snd p)%nat) (increment eqb k d).
Proof.
  induction 1 as [|[k1 c] d Hp Hd IH]; simpl.
  - repeat constructor.
  - destruct (eqb k1 k); constructor; simpl in *; auto; lia.
Qed.

Lemma get_count_in d k c :
  NoDup (map fst d) -> In (k, c) d -> get_count eqb d k = c.
Proof.
  unfold get_count. induction d as [|[k1 c1] d IH]; simpl;
    intros Hnd Hin; [contradiction|].
  inversion Hnd as [|? ? Hnotin Hnd']; subst.
  rewrite (eqb_dec k1 k). destruct (eq_dec k1 k) as [E|E].
  - subst k1. destruct Hin as [Hin|Hin]; [now inversion Hin|].
    exfalso. apply Hnotin. apply in_map_iff. now exists (k, c).
  - destruct Hin as [Hin|Hin]; [inversion Hin; congruence|now apply IH].
Qed.

Lemma count_keys_from keys d :
  let d' := fold_left (fun d k => increment eqb k d) keys d in
  (forall k, get_count eqb d' k
             = (get_count eqb d k + count_occ eq_dec keys k)%nat) /\
  (NoDup (map fst d) -> NoDup (map fst d')) /\
  (Forall (fun p => (0 < snd p)%nat) d ->
   Forall (fun p => (0 < snd p)%nat) d') /\
  (forall k, In k (map fst d') <-> In k keys \/ In k (map fst d)).
Proof.
  revert d. induction keys as [|x keys IH]; intros d; simpl.
  - repeat split; auto; intuition.
  - destruct (IH (increment eqb x d)) as [Hget [Hnd [Hpos Hkeys]]].
    repeat split.
    + intros k. rewrite Hget, get_increment.
      destruct (eq_dec x k); lia.
    + intros H. now apply Hnd, increment_NoDup.
    + intros H. now apply Hpos, increment_positive.
    + rewrite Hkeys, increment_keys. intuition.
    + rewrite Hkeys, increment_keys. intuition.
Qed.

(** The counter of a list of keys: one item per distinct key, with the
    number of its occurrences. *)
Lemma count_keys_spec keys :
  NoDup (map fst (count_keys eqb keys)) /\
  (forall k c, In (k, c) (count_keys eqb keys) ->
               c = count_occ eq_dec keys k /\ (0 < c)%nat) /\
  (forall k, In k (map fst (count_keys eqb keys)) <-> In k keys).
Proof.
  unfold count_keys.
  destruct (count_keys_from keys []) as [Hget [Hnd [Hpos Hkeys]]].
  simpl in *. split; [apply Hnd; constructor|]. split.
  - intros k c Hin. split.
    + rewrite <- (get_count_in _ k c (Hnd (NoDup_nil _)) Hin).
      now rewrite Hget.
    + specialize (Hpos (Forall_nil _)). rewrite Forall_forall in Hpos.
      apply (Hpos (k, c) Hin).
  - intros k. rewrite Hkeys. intuition.
Qed.

End CounterFacts.

Section SortedFacts.

Context {A : Type}.
Variable leb : A -> A -> bool.
Hypothesis leb_total : forall x y, leb x y = true \/ leb y x = true.
Hypothesis leb_trans :
  forall x y z, leb x y = true -> leb y z = true -> leb x z = true.

Lemma insort_perm x l : Permutation (insort leb x l) (x :: l).
Proof.
  induction l as [|y l IH]; simpl; [reflexivity|].
  destruct (leb x y); [reflexivity|].
  rewrite IH. apply perm_swap.
Qed.

Lemma sorted_by_perm l : Permutation (sorted_by leb l) l.
Proof.
  induction l as [|x l IH]; simpl; [reflexivity|].
  rewrite insort_perm. now constructor.
Qed.

Lemma insort_sorted x l :
  StronglySorted (fun a b => leb a b = true) l ->
  StronglySorted (fun a b => leb a b = true) (insort leb x l).
Proof.
  induction 1 as [|y l Hs IH Hall]; simpl.
  - repeat constructor.
  - destruct (leb x y) eqn:E.
    + constructor; [now constructor|].
      constructor; [exact E|].
      eapply Forall_impl; [|exact Hall]. intros z Hz.
      now apply leb_trans with y.
    + constructor; [exact IH|].
      eapply Permutation_Forall; [symmetry; apply insort_perm|].
      constructor; [|exact Hall].
      destruct (leb_total x y); congruence.
Qed.

Lemma sorted_by_sorted l :
  StronglySorted (fun a b => leb a b = true) (sorted_by leb l).
Proof.
  induction l as [|x l IH]; simpl; [constructor|now apply insort_sorted].
Qed.

End SortedFacts.

Lemma strictly_sorted_unique (l1 l2 : list Z) :
  StronglySorted Z.lt l1 -> StronglySorted Z.lt l2 ->
  (forall x, In x l1 <-> In x l2) -> l1 = l2.
Proof.
  intros H1. revert l2. induction H1 as [|a l1 Hs1 IH Ha]; intros l2 H2 Heq.
  - destruct l2 as [|b l2]; [reflexivity|].
    exfalso. apply (proj2 (Heq b)). now left.
  - destruct H2 as [|b l2 Hs2 Hb].
    + exfalso. apply (proj1 (Heq a)). now left.
    + rewrite Forall_forall in Ha, Hb.
      assert (a = b).
      { destruct (proj1 (Heq a) (or_introl eq_refl)) as [E|Hin]; [now subst|].
        destruct (proj2 (Heq b) (or_introl eq_refl)) as [E|Hin']; [exact E|].
        specialize (Ha b Hin'). specialize (Hb a Hin). lia. }
      subst b. f_equal. apply IH; [exact Hs2|].
      intros x. split; intros Hx.
      * destruct (proj1 (Heq x) (or_intror Hx)) as [E|Hin]; [|exact Hin].
        subst x. specialize (Ha a Hx). lia.
      * destruct (proj2 (Heq x) (or_intror Hx)) as [E|Hin]; [|exact Hin].
        subst x. specialize (Hb a Hx). lia.
Qed.

(* ================================================================== *)
(** * Properties of [get_stats], [get_filters] and the category counts *)
(* ================================================================== *)

Lemma count_where_disjoint3 (p q r : Movie.t -> bool) movies :
  (forall m, (p m && q m = false) /\ (p m && r m = false)
             /\ (q m && r m = false)) ->
  (count_where p movies + count_where q movies + count_where r movies
   <= List.length movies)%nat.
Proof.
  intros Hdis. unfold count_where.
  induction movies as [|m movies IH]; simpl; [lia|].
  destruct (Hdis m) as [H1 [H2 H3]].
  destruct (p m), (q m), (r m); simpl in *; try discriminate; lia.
Qed.

Lemma count_where_disjoint2 (p q : Movie.t -> bool) movies :
  (forall m, p m && q m = false) ->
  (count_where p movies + count_where q movies <= List.length movies)%nat.
Proof.
  intros Hdis. unfold count_where.
  induction movies as [|m movies IH]; simpl; [lia|].
  specialize (Hdis m).
  destruct (p m), (q m); simpl in *; try discriminate; lia.
Qed.

Lemma count_where_le (p q : Movie.t -> bool) movies :
  (forall m, p m = true -> q m = true) ->
  (count_where p movies <= count_where q movies)%nat.
Proof.
  intros Himp. unfold count_where.
  induction movies as [|m movies IH]; simpl; [lia|].
  destruct (p m) eqn:P; [rewrite (Himp m P); simpl; lia|].
  destruct (q m); simpl; lia.
Qed.

Lemma is_str_exclusive v s1 s2 :
  s1 <> s2 -> is_str v s1 && is_str v s2 = false.
Proof.
  intros Hne. destruct v as [x|]; simpl; [|reflexivity].
  destruct (String.eqb x s1) eqn:E1; [|reflexivity].
  apply String.eqb_eq in E1. subst x. simpl.
  now apply String.eqb_neq.
Qed.

Lemma south_indian_not v :
  forall s, ~ In s ["ta"; "te"; "ml"; "kn"] ->
  is_str (Movie.language v) s && south_indian_language v = false.
Proof.
  intros s Hs. unfold south_indian_language.
  destruct (Movie.language v) as [x|]; simpl; [|reflexivity].
  destruct (String.eqb x s) eqn:E; [|reflexivity].
  apply String.eqb_eq in E. subst x. simpl in Hs.
  repeat match goal with
         | |- context [String.eqb s ?c] =>
             let H := fresh in
             destruct (String.eqb s c) eqn:H;
             [apply String.eqb_eq in H; subst s; tauto|]
         end.
  reflexivity.
Qed.

(** X25.  The counts of [get_stats] are consistent: movies and TV shows
    together are at most the total, Hollywood entries are movies, and
    the three region buckets do not overlap. *)
Theorem stats_counts_consistent recommender :
  let stats := get_stats recommender in
  (Stats.movies stats + Stats.tv_shows stats <= Stats.total_count stats)%nat /\
  (Stats.hollywood stats <= Stats.movies stats)%nat /\
  (Stats.hollywood stats + Stats.bollywood stats + Stats.south_indian stats
   <= Stats.total_count stats)%nat.
Proof.
  simpl. split; [|split].
  - apply count_where_disjoint2. intros m.
    apply is_str_exclusive. discriminate.
  - apply count_where_le. intros m H.
    now apply andb_true_iff in H.
  - apply count_where_disjoint3. intros m. repeat split.
    + destruct (is_str (Movie.content_type m) "movie"); simpl; auto.
      apply is_str_exclusive. discriminate.
    + destruct (is_str (Movie.content_type m) "movie"); simpl; auto.
      apply south_indian_not. simpl. intuition discriminate.
    + apply south_indian_not. simpl. intuition discriminate.
Qed.

Lemma by_count_desc_total x y :
  by_count_desc x y = true \/ by_count_desc y x = true.
Proof.
  unfold by_count_desc.
  destruct (Nat.leb_spec (snd y) (snd x)); [now left|right].
  apply Nat.leb_le. lia.
Qed.

Lemma by_count_desc_trans x y z :
  by_count_desc x y = true -> by_count_desc y z = true ->
  by_count_desc x z = true.
Proof.
  unfold by_count_desc. rewrite !Nat.leb_le. lia.
Qed.

(** X26.  [top_genres] has at most 15 genres, each once and with the number of
    its occurrences in the catalog, in non-increasing order of count;
    a genre of the catalog that is left out is not more frequent than
    any genre listed, and then exactly 15 are listed. *)
Theorem top_genres_are_the_most_frequent recommender :
  let top := Stats.top_genres (get_stats recommender) in
  let occurrences :=
    count_occ string_dec (flat_map Movie.genres (movies recommender)) in
  (List.length top <= 15)%nat /\
  NoDup (map fst top) /\
  StronglySorted (fun a b => (snd b <= snd a)%nat) top /\
  (forall g c, In (g, c) top -> c = occurrences g /\ (0 < c)%nat) /\
  (forall g, (0 < occurrences g)%nat -> ~ In g (map fst top) ->
             List.length top = 15%nat /\
             forall g' c', In (g', c') top -> (occurrences g <= c')%nat).
Proof.
  cbn zeta. unfold get_stats. cbn [Stats.top_genres].
  set (keys := flat_map Movie.genres (movies recommender)).
  set (d := count_keys String.eqb keys).
  destruct (count_keys_spec String.eqb string_dec String.eqb_eq keys)
    as [Hnd [Hcount Hkeys]]. fold d in Hnd, Hcount, Hkeys.
  pose proof (sorted_by_perm by_count_desc d) as Hperm.
  pose proof (sorted_by_sorted by_count_desc by_count_desc_total
                by_count_desc_trans d) as Hsorted.
  set (l := sorted_by by_count_desc d) in *.
  assert (Hsplit : l = firstn 15 l ++ skipn 15 l)
    by (symmetry; apply firstn_skipn).
  assert (Hin : forall p, In p (firstn 15 l) -> In p d).
  { intros p Hp. eapply Permutation_in; [exact Hperm|].
    rewrite Hsplit. apply in_or_app. now left. }
  split; [apply firstn_le_length|]. split.
  { assert (Hnd' : NoDup (map fst l)).
    { eapply Permutation_NoDup; [|exact Hnd].
      apply Permutation_map. now symmetry. }
    rewrite Hsplit, map_app in Hnd'. now apply NoDup_app_remove_r in Hnd'. }
  split.
  { rewrite Hsplit in Hsorted.
    assert (Hs : StronglySorted (fun a b => by_count_desc a b = true)
                   (firstn 15 l)).
    { clear -Hsorted. induction (firstn 15 l) as [|a f IH]; [constructor|].
      simpl in Hsorted. apply StronglySorted_inv in Hsorted.
      destruct Hsorted as [Hs Hall]. constructor; [now apply IH|].
      apply Forall_app in Hall. apply Hall. }
    clear -Hs. induction Hs as [|a f Hs IH Hall]; constructor; auto.
    eapply Forall_impl; [|exact Hall]. intros b Hb.
    now apply Nat.leb_le. }
  split.
  { intros g c Hgc. now apply Hcount, Hin. }
  intros g Hpos Hout.
  assert (Hg : In g keys).
  { destruct (in_dec string_dec g keys) as [H|H]; [exact H|].
    apply (count_occ_not_In string_dec) in H. unfold keys in *. lia. }
  apply Hkeys, in_map_iff in Hg. destruct Hg as [[g0 c] [E Hd]].
  simpl in E. subst g0.
  assert (Hl : In (g, c) l).
  { eapply Permutation_in; [symmetry; exact Hperm|exact Hd]. }
  rewrite Hsplit in Hl. apply in_app_or in Hl. destruct Hl as [Hl|Hl].
  { exfalso. apply Hout. apply in_map_iff. now exists (g, c). }
  split.
  - apply firstn_length_le.
    destruct (Nat.le_gt_cases 15 (List.length l)) as [H|H]; [exact H|].
    rewrite skipn_all2 in Hl by lia. contradiction.
  - intros g' c' Hin'.
    rewrite Hsplit in Hsorted.
    pose proof (StronglySorted_app_cross _ _ _ _ _ Hsorted Hin' Hl) as Hle.
    unfold by_count_desc in Hle. simpl in Hle. apply Nat.leb_le in Hle.
    destruct (Hcount g c Hd) as [Hc _]. fold keys. lia.
Qed.

Lemma by_year_total x y : by_year x y = true \/ by_year y x = true.
Proof.
  unfold by_year.
  destruct (Z.ltb_spec (fst x) (fst y)); [now left|].
  destruct (Z.ltb_spec (fst y) (fst x)); [now right|].
  assert (E : fst x = fst y) by lia. rewrite E, !Z.eqb_refl. simpl.
  destruct (Nat.leb_spec (snd x) (snd y)); [now left|right].
  apply Nat.leb_le. lia.
Qed.

Lemma by_year_le x y : by_year x y = true -> (fst x <= fst y)%Z.
Proof.
  unfold by_year. intros H. apply orb_true_iff in H.
  destruct H as [H|H]; [apply Z.ltb_lt in H; lia|].
  apply andb_true_iff in H. destruct H as [H _]. apply Z.eqb_eq in H. lia.
Qed.

Lemma by_year_trans x y z :
  by_year x y = true -> by_year y z = true -> by_year x z = true.
Proof.
  unfold by_year. intros H1 H2.
  apply orb_true_iff in H1, H2. apply orb_true_iff.
  destruct H1 as [H1|H1], H2 as [H2|H2];
    rewrite ?andb_true_iff, ?Z.ltb_lt, ?Z.eqb_eq, ?Nat.leb_le in *;
    try (left; lia).
  right. split; [lia|lia].
Qed.

Lemma sorted_keys_increasing (l : list Z) :
  StronglySorted Z.le l -> NoDup l -> StronglySorted Z.lt l.
Proof.
  induction 1 as [|a l Hs IH Hall]; intros Hnd; [constructor|].
  inversion Hnd as [|? ? Hnotin Hnd']; subst.
  constructor; [now apply IH|].
  rewrite Forall_forall in *. intros b Hb.
  specialize (Hall b Hb).
  assert (a <> b) by (intros ->; contradiction). lia.
Qed.

Lemma counted_years_in movies y :
  In y (counted_years movies) <->
  y <> 0%Z /\ exists movie, In movie movies /\ stats_year movie = Some y.
Proof.
  unfold counted_years. rewrite in_flat_map. split.
  - intros [m [Hm Hy]]. destruct (stats_year m) as [y'|] eqn:E; [|contradiction].
    destruct (Z.eqb_spec y' 0); [contradiction|].
    destruct Hy as [<-|[]]. split; [assumption|]. now exists m.
  - intros [Hne [m [Hm E]]]. exists m. split; [exact Hm|].
    rewrite E. destruct (Z.eqb_spec y 0); [contradiction|now left].
Qed.

Lemma counted_years_count movies y :
  y <> 0%Z ->
  count_occ Z.eq_dec (counted_years movies) y =
  count_where (fun m => match stats_year m with
                        | Some y' => Z.eqb y' y
                        | None => false
                        end) movies.
Proof.
  intros Hne. unfold counted_years, count_where.
  induction movies as [|m movies IH]; simpl; [reflexivity|].
  rewrite count_occ_app, IH.
  destruct (stats_year m) as [y'|]; simpl; [|reflexivity].
  destruct (Z.eqb_spec y' 0) as [E0|E0]; simpl.
  - subst y'. destruct (Z.eqb_spec 0 y); [congruence|reflexivity].
  - destruct (Z.eq_dec y' y) as [E|E].
    + subst. now rewrite Z.eqb_refl.
    + destruct (Z.eqb_spec y' y); [contradiction|reflexivity].
Qed.

Lemma year_distribution_keys recommender :
  StronglySorted Z.lt
    (map fst (Stats.year_distribution (get_stats recommender))) /\
  forall y, In y (map fst (Stats.year_distribution (get_stats recommender)))
            <-> In y (counted_years (movies recommender)).
Proof.
  unfold get_stats. cbn [Stats.year_distribution].
  set (keys := counted_years (movies recommender)).
  destruct (count_keys_spec Z.eqb Z.eq_dec Z.eqb_eq keys)
    as [Hnd [_ Hkeys]].
  pose proof (sorted_by_perm by_year (count_keys Z.eqb keys)) as Hperm.
  pose proof (sorted_by_sorted by_year by_year_total by_year_trans
                (count_keys Z.eqb keys)) as Hsorted.
  split.
  - apply sorted_keys_increasing.
    + clear -Hsorted.
      induction Hsorted as [|a l Hs IH Hall]; simpl; constructor; auto.
      rewrite Forall_forall in *. intros b Hb.
      apply in_map_iff in Hb. destruct Hb as [p [<- Hp]].
      apply by_year_le. now apply Hall.
    + eapply Permutation_NoDup; [|exact Hnd].
      apply Permutation_map. now symmetry.
  - intros y. rewrite <- Hkeys. split; intros H;
      (eapply Permutation_in; [|exact H]); apply Permutation_map;
      [exact Hperm|now symmetry].
Qed.

(** X27.  [year_distribution] lists the years in strictly increasing order;
    the year 0 is never listed; each year comes with the number of
    entries of that year, which is positive; and every entry whose year
    parses and is not 0 is counted. *)
Theorem year_distribution_is_a_histogram recommender :
  let dist := Stats.year_distribution (get_stats recommender) in
  StronglySorted (fun a b => (fst a < fst b)%Z) dist /\
  (forall y c, In (y, c) dist ->
     y <> 0%Z /\ (0 < c)%nat /\
     c = count_where (fun m => match stats_year m with
                               | Some y' => Z.eqb y' y
                               | None => false
                               end) (movies recommender)) /\
  (forall movie y, In movie (movies recommender) ->
     stats_year movie = Some y -> y <> 0%Z -> In y (map fst dist)).
Proof.
  cbn zeta. destruct (year_distribution_keys recommender) as [Hs Hkeys].
  split; [|split].
  - clear -Hs.
    induction (Stats.year_distribution (get_stats recommender)) as [|a l IH];
      [constructor|].
    simpl in Hs. apply StronglySorted_inv in Hs. destruct Hs as [Hs Hall].
    constructor; [now apply IH|].
    rewrite Forall_forall in *. intros b Hb. apply Hall.
    now apply in_map.
  - intros y c Hin.
    assert (Hy : In y (counted_years (movies recommender))).
    { apply Hkeys. apply in_map_iff. now exists (y, c). }
    apply counted_years_in in Hy. destruct Hy as [Hne _].
    unfold get_stats in Hin. cbn [Stats.year_distribution] in Hin.
    set (keys := counted_years (movies recommender)) in *.
    destruct (count_keys_spec Z.eqb Z.eq_dec Z.eqb_eq keys)
      as [_ [Hcount _]].
    assert (Hd : In (y, c) (count_keys Z.eqb keys)).
    { eapply Permutation_in; [apply sorted_by_perm|exact Hin]. }
    destruct (Hcount y c Hd) as [Hc Hpos].
    split; [exact Hne|]. split; [exact Hpos|].
    rewrite Hc. now apply counted_years_count.
  - intros movie y Hm Hy Hne. apply Hkeys, counted_years_in.
    split; [exact Hne|]. now exists movie.
Qed.

(** X28.  The years offered by [/api/filters] are exactly the years of the
    histogram of [/api/stats], in the same order. *)
Theorem filter_years_match_stats recommender :
  filter_years recommender =
  map fst (Stats.year_distribution (get_stats recommender)).
Proof.
  destruct (year_distribution_keys recommender) as [Hs Hkeys].
  apply strictly_sorted_unique; [|exact Hs|].
  - unfold filter_years.
    set (l := nodup Z.eq_dec (counted_years (movies recommender))).
    apply sorted_keys_increasing.
    + pose proof (sorted_by_sorted Z.leb) as H.
      assert (Hsorted : StronglySorted (fun a b => Z.leb a b = true)
                          (sorted_by Z.leb l)).
      { apply H.
        - intros x y. rewrite !Z.leb_le. lia.
        - intros x y z. rewrite !Z.leb_le. lia. }
      clear -Hsorted. induction Hsorted as [|a l' Hs IH Hall];
        constructor; auto.
      eapply Forall_impl; [|exact Hall]. intros b Hb. now apply Z.leb_le.
    + eapply Permutation_NoDup; [symmetry; apply sorted_by_perm|].
      apply NoDup_nodup.
  - intros y. rewrite Hkeys. unfold filter_years. split; intros H.
    + apply (nodup_In Z.eq_dec).
      eapply Permutation_in; [apply sorted_by_perm|exact H].
    + eapply Permutation_in; [symmetry; apply sorted_by_perm|].
      now apply nodup_In.
Qed.

Lemma category_counts_from movies h b s w :
  let '(h', b', s', w') :=
    fold_left
      (fun counts movie =>
         let '(hollywood_count, bollywood_count, south_indian_count,
               web_series_count) := counts in
         let content_type := match Movie.content_type movie with
                             | Some c => c
                             | None => "movie"
                             end in
         let language := match Movie.language movie with
                         | Some l => l
                         | None => "unknown"
                         end in
         if String.eqb content_type "tv" then
           (hollywood_count, bollywood_count, south_indian_count,
            S web_series_count)
         else if String.eqb language "hi" then
           (hollywood_count, S bollywood_count, south_indian_count,
            web_series_count)
         else if existsb (String.eqb language) ["ta"; "te"; "ml"; "kn"] then
           (hollywood_count, bollywood_count, S south_indian_count,
            web_series_count)
         else
           (S hollywood_count, bollywood_count, south_indian_count,
            web_series_count))
      movies (h, b, s, w) in
  (h' + b' + s' + w' = h + b + s + w + List.length movies)%nat /\
  (w' = w + count_where (fun m => is_str (Movie.content_type m) "tv") movies)%nat.
Proof.
  revert h b s w. induction movies as [|m movies IH]; intros h b s w.
  - simpl. unfold count_where. simpl. lia.
  - cbn [fold_left].
    unfold count_where. cbn [filter]. unfold is_str at 1.
    destruct (Movie.content_type m) as [c|].
    + destruct (String.eqb c "tv") eqn:Etv.
      * specialize (IH h b s (S w)). unfold count_where in IH.
        destruct (fold_left _ movies (h, b, s, S w)) as [[[h' b'] s'] w'].
        simpl. lia.
      * destruct (String.eqb _ "hi");
          [specialize (IH h (S b) s w)
          |destruct (existsb _ _);
             [specialize (IH h b (S s) w)|specialize (IH (S h) b s w)]];
          unfold count_where in IH;
          match type of IH with
          | context [fold_left ?f ?l ?a] =>
              destruct (fold_left f l a) as [[[h' b'] s'] w']
          end; simpl; lia.
    + change (String.eqb "movie" "tv") with false. cbv iota.
      destruct (String.eqb _ "hi");
        [specialize (IH h (S b) s w)
        |destruct (existsb _ _);
           [specialize (IH h b (S s) w)|specialize (IH (S h) b s w)]];
        unfold count_where in IH;
        match type of IH with
        | context [fold_left ?f ?l ?a] =>
            destruct (fold_left f l a) as [[[h' b'] s'] w']
        end; simpl; lia.
Qed.

(** X29.  The four categories of [_fetch_additional_data] partition the
    catalog: the counts add up to the number of entries, and the count
    of web series is the count of TV shows of [get_stats]. *)
Theorem category_counts_partition recommender :
  let '(hollywood_count, bollywood_count, south_indian_count,
        web_series_count) := category_counts (movies recommender) in
  (hollywood_count + bollywood_count + south_indian_count + web_series_count
   = Stats.total_count (get_stats recommender))%nat /\
  web_series_count = Stats.tv_shows (get_stats recommender).
Proof.
  pose proof (category_counts_from (movies recommender) 0 0 0 0) as H.
  unfold category_counts.
  destruct (fold_left _ (movies recommender) (0, 0, 0, 0)%nat)
    as [[[h b] s] w].
  simpl in *. lia.
Qed.
